(** * bambulab-prometheus: the telemetry cycle of [src/exporter.py]

    A shallow embedding of [BambuExporter.update_metrics] and of the
    builtins it relies on, followed by the properties of the cycle:
    state reconciliation, liveness classification, the offline reset,
    the dynamic-label gauges, per-field and per-device fault isolation
    and the unit conversions.

    Conventions of the embedding.
    - Python strings are [string]s of ASCII characters; [str.upper] and
      [str.lower] change the letters a-z / A-Z only.
    - The numbers a client getter returns are exact rationals ([Q]).
      [float()] of a string is rounded to the nearest double, as
      Python does; a gauge therefore also holds the two infinities,
      NaN and the negative zero.
    - A client getter either raises or returns an optional value
      ([Read]); the value handed to the model is the one the code
      converts with [str()] where the code does so.
    - The metric sink is an external collaborator: a write to a gauge
      either succeeds or raises, as decided by [sink_raises]. *)

From Stdlib Require Import Ascii String QArith.
From stdpp Require Import gmap strings list fin_maps.

Local Open Scope string_scope.
Local Open Scope Z_scope.

(** ** Python builtins on strings *)

Module PyStr.

Definition is_upper_letter (c : ascii) : bool :=
  let n := nat_of_ascii c in ((65 <=? n) && (n <=? 90))%nat.

Definition is_lower_letter (c : ascii) : bool :=
  let n := nat_of_ascii c in ((97 <=? n) && (n <=? 122))%nat.

Definition upper_char (c : ascii) : ascii :=
  if is_lower_letter c then ascii_of_nat (nat_of_ascii c - 32) else c.

Definition lower_char (c : ascii) : ascii :=
  if is_upper_letter c then ascii_of_nat (nat_of_ascii c + 32) else c.

(** [s.upper()] *)
Fixpoint upper (s : string) : string :=
  match s with
  | EmptyString => EmptyString
  | String c s' => String (upper_char c) (upper s')
  end.

(** [s.lower()] *)
Fixpoint lower (s : string) : string :=
  match s with
  | EmptyString => EmptyString
  | String c s' => String (lower_char c) (lower s')
  end.

(** The ASCII characters for which [str.isspace] holds: TAB, LF, VT,
    FF, CR, the four separators FS..US and the blank. *)
Definition is_space (c : ascii) : bool :=
  let n := nat_of_ascii c in
  (((9 <=? n) && (n <=? 13)) || ((28 <=? n) && (n <=? 32)))%nat.

Fixpoint lstrip (s : string) : string :=
  match s with
  | EmptyString => EmptyString
  | String c s' => if is_space c then lstrip s' else s
  end.

Definition rstrip (s : string) : string :=
  String.rev (lstrip (String.rev s)).

(** [s.strip()] *)
Definition strip (s : string) : string := rstrip (lstrip s).

Fixpoint starts_with (p s : string) : bool :=
  match p, s with
  | EmptyString, _ => true
  | String a p', String b s' => if decide (a = b) then starts_with p' s' else false
  | String _ _, EmptyString => false
  end.

(** [s.replace(old, new)] for a non-empty [old]: the occurrences are
    found from the left and do not overlap. [skip] counts the
    characters of a match that are still to be dropped. *)
Fixpoint replace_from (old new : string) (skip : nat) (s : string) : string :=
  match s with
  | EmptyString => EmptyString
  | String c s' =>
      match skip with
      | S k => replace_from old new k s'
      | O =>
          if starts_with old s
          then new +:+ replace_from old new (String.length old - 1) s'
          else String c (replace_from old new O s')
      end
  end.

Definition replace (old new s : string) : string := replace_from old new O s.

End PyStr.

(** ** Gauge values and [float()] *)

(** What a gauge holds: a Python float. [Num] carries every finite
    value but the negative zero. *)
Inductive Value : Type :=
  | Num (q : Q)
  | NegZero
  | Inf (negative : bool)
  | NaN.

Module PyFloat.

Definition digit_of (c : ascii) : option Z :=
  let n := nat_of_ascii c in
  if ((48 <=? n) && (n <=? 57))%nat then Some (Z.of_nat (n - 48)) else None.

(** digitpart ::= digit (["_"] digit)*
    [after_digit] tells whether the previous character was a digit;
    the result is the number read and how many digits it had. *)
Fixpoint digitpart_from (after_digit : bool) (acc : Z) (n : nat) (l : list ascii)
  : option (Z * nat) :=
  match l with
  | [] => if after_digit then Some (acc, n) else None
  | c :: l' =>
      match digit_of c with
      | Some d => digitpart_from true (acc * 10 + d) (S n) l'
      | None =>
          if decide (c = "_"%char) then
            if after_digit then digitpart_from false acc n l' else None
          else None
      end
  end.

Definition digitpart (l : list ascii) : option (Z * nat) :=
  digitpart_from false 0 O l.

(** Splits at the first character that satisfies [p]. *)
Fixpoint split_at (p : ascii → bool) (l : list ascii)
  : list ascii * option (list ascii) :=
  match l with
  | [] => ([], None)
  | c :: l' =>
      if p c then ([], Some l')
      else let '(a, b) := split_at p l' in (c :: a, b)
  end.

Definition is_dot (c : ascii) : bool := bool_decide (c = "."%char).
Definition is_exp (c : ascii) : bool :=
  bool_decide (c = "e"%char) || bool_decide (c = "E"%char).

(** [sign] and the rest *)
Definition split_sign (l : list ascii) : bool * list ascii :=
  match l with
  | c :: l' =>
      if decide (c = "-"%char) then (true, l')
      else if decide (c = "+"%char) then (false, l')
      else (false, l)
  | [] => (false, [])
  end.

(** number ::= [digitpart] "." digitpart | digitpart ["."] *)
Definition number (l : list ascii) : option Q :=
  match split_at is_dot l with
  | (ip, None) =>
      '(i, _) ← digitpart ip; Some (inject_Z i)
  | (ip, Some fp) =>
      match ip, fp with
      | [], [] => None
      | _, [] => '(i, _) ← digitpart ip; Some (inject_Z i)
      | [], _ => '(f, k) ← digitpart fp; Some (inject_Z f / inject_Z (10 ^ Z.of_nat k))%Q
      | _, _ =>
          '(i, _) ← digitpart ip;
          '(f, k) ← digitpart fp;
          Some (inject_Z i + inject_Z f / inject_Z (10 ^ Z.of_nat k))%Q
      end
  end.

(** exponent ::= ("e" | "E") [sign] digitpart, given without its letter *)
Definition exponent (l : list ascii) : option Z :=
  let '(neg, ds) := split_sign l in
  '(e, _) ← digitpart ds;
  Some (if neg then - e else e).

(** floatnumber ::= number [exponent] *)
Definition floatnumber (l : list ascii) : option Q :=
  match split_at is_exp l with
  | (m, None) => number m
  | (m, Some ex) =>
      q ← number m;
      e ← exponent ex;
      Some (q * Qpower (inject_Z 10) e)%Q
  end.

(** The integer [k] with [2 ^ k <= n / d < 2 ^ (k + 1)], for positive
    [n] and [d]. *)
Definition floor_log2 (n d : Z) : Z :=
  let k := Z.log2 n - Z.log2 d in
  let reaches := if 0 <=? k then d * 2 ^ k <=? n else d <=? n * 2 ^ (- k) in
  if reaches then k else k - 1.

(** The integer nearest to [n / d], the even one of two that are
    equally near. *)
Definition round_half_even (n d : Z) : Z :=
  let fl := n / d in
  match 2 * (n mod d) ?= d with
  | Lt => fl
  | Gt => fl + 1
  | Eq => if Z.even fl then fl else fl + 1
  end.

(** [m * 2 ^ e] as a rational. *)
Definition scale2 (m e : Z) : Q :=
  if 0 <=? e then inject_Z (m * 2 ^ e) else Qred (Qmake m (Z.to_pos (2 ^ (- e)))).

(** The double nearest to the positive rational [n / d]: 53 bits of
    mantissa, the last place no finer than [2 ^ -1074]; [None] when the
    result is beyond the largest double. *)
Definition nearest_double (n d : Z) : option Q :=
  let e := Z.max (-1074) (floor_log2 n d - 52) in
  if 971 <? e then None
  else
    let m := if 0 <=? e then round_half_even n (d * 2 ^ e)
             else round_half_even (n * 2 ^ (- e)) d in
    if (e =? 971) && (m =? 2 ^ 53) then None else Some (scale2 m e).

(** The float for the sign and the exact value that were read: the
    nearest double, an infinity beyond the largest one, a signed zero. *)
Definition to_float (neg : bool) (q : Q) : Value :=
  let zero := if neg then NegZero else Num (inject_Z 0) in
  if Qnum q =? 0 then zero
  else
    match nearest_double (Qnum q) (Zpos (Qden q)) with
    | None => Inf neg
    | Some r => if Qnum r =? 0 then zero else Num (if neg then Qred (- r) else r)
    end.

(** absfloatvalue ::= floatnumber | infinity | nan, the two words in
    any letter case *)
Definition absfloatvalue (neg : bool) (l : list ascii) : option Value :=
  let w := PyStr.lower (string_of_list_ascii l) in
  if decide (w = "inf") then Some (Inf neg)
  else if decide (w = "infinity") then Some (Inf neg)
  else if decide (w = "nan") then Some NaN
  else
    q ← floatnumber l;
    Some (to_float neg (Qred q)).

(** [float(s)]: [None] stands for [ValueError]. *)
Definition float (s : string) : option Value :=
  let '(neg, body) := split_sign (list_ascii_of_string (PyStr.strip s)) in
  absfloatvalue neg body.

End PyFloat.

(** ** The metric sink: [BambuMetrics] *)

(** A labelled gauge is the dictionary [_metrics] of its children: label
    values to current value. A combination that was never written, or
    was cleared, is absent. *)
Abbreviation Gauge := (gmap (list string) Value).

Definition num (z : Z) : Value := Num (inject_Z z).

Module metrics.

(** The gauges of [BambuMetrics.__init__] that the cycle writes. All
    carry the label [printer]; [current_file] adds [filename],
    [nozzle_info] adds [nozzle_type] and [nozzle_diameter_mm]. *)
Inductive Metric : Set :=
  | nozzle_temp | nozzle_target_temp | bed_temp | bed_target_temp
  | chamber_temp
  | print_progress | print_remaining_time | current_layer | total_layers
  | print_speed
  | printer_online | printer_state | wifi_signal | chamber_light
  | error_code
  | current_file | nozzle_info.

#[export] Instance Metric_eq_dec : EqDecision Metric.
Proof. solve_decision. Defined.

Definition to_nat (g : Metric) : nat :=
  match g with
  | nozzle_temp => 0 | nozzle_target_temp => 1 | bed_temp => 2
  | bed_target_temp => 3 | chamber_temp => 4 | print_progress => 5
  | print_remaining_time => 6 | current_layer => 7 | total_layers => 8
  | print_speed => 9 | printer_online => 10 | printer_state => 11
  | wifi_signal => 12 | chamber_light => 13 | error_code => 14
  | current_file => 15 | nozzle_info => 16
  end%nat.

Definition of_nat (n : nat) : option Metric :=
  match n with
  | 0 => Some nozzle_temp | 1 => Some nozzle_target_temp | 2 => Some bed_temp
  | 3 => Some bed_target_temp | 4 => Some chamber_temp | 5 => Some print_progress
  | 6 => Some print_remaining_time | 7 => Some current_layer
  | 8 => Some total_layers | 9 => Some print_speed | 10 => Some printer_online
  | 11 => Some printer_state | 12 => Some wifi_signal | 13 => Some chamber_light
  | 14 => Some error_code | 15 => Some current_file | 16 => Some nozzle_info
  | _ => None
  end%nat.

#[export] Instance Metric_countable : Countable Metric.
Proof. refine (inj_countable to_nat of_nat _). by intros []. Defined.

End metrics.
Export (hints) metrics.

(** One [BambuMetrics] object; a gauge without children reads as [∅]. *)
Abbreviation BambuMetrics := (gmap metrics.Metric Gauge).

(** ** The device client *)

(** What a call of a getter does this cycle. *)
Inductive Read (A : Type) : Type :=
  | Raises
  | Returns (a : A).
Arguments Raises {A}.
Arguments Returns {A} a.

(** [bl.Printer] as the cycle sees it: the answer of every getter the
    code calls. String-valued answers are given as [str()] shows them. *)
Record Printer : Type := {
  mqtt_client_connected : Read bool;
  get_nozzle_temperature : Read (option Q);
  get_bed_temperature : Read (option Q);
  get_chamber_temperature : Read (option Q);
  get_percentage : Read (option Q);
  get_time : Read (option Q);
  current_layer_num : Read (option Q);
  total_layer_num : Read (option Q);
  get_print_speed : Read (option Q);
  wifi_signal : Read (option string);
  get_light_state : Read (option string);
  get_state : Read (option string);
  gcode_state : Read (option string);
  print_error_code : Read (option Z);
  get_file_name : Read (option string);
  nozzle_type : Read (option string);
  nozzle_diameter : Read (option string)
}.

(** ** Statements that may raise, over one [BambuMetrics] object *)

Inductive outcome (A : Type) : Type :=
  | Ok (a : A)
  | Raised.
Arguments Ok {A} a.
Arguments Raised {A}.

Definition M (A : Type) : Type := BambuMetrics → outcome A * BambuMetrics.

#[export] Instance M_ret : MRet M := λ A a bm, (Ok a, bm).

#[export] Instance M_bind : MBind M := λ A B k c bm,
  match c bm with
  | (Ok a, bm') => k a bm'
  | (Raised, bm') => (Raised, bm')
  end.

Definition raise {A} : M A := λ bm, (Raised, bm).

(** [try: body except Exception: handler]; what [body] wrote before it
    raised stays written. *)
Definition try_except {A} (body handler : M A) : M A := λ bm,
  match body bm with
  | (Ok a, bm') => (Ok a, bm')
  | (Raised, bm') => handler bm'
  end.

Notation "'TRY' body 'EXCEPT' handler" := (try_except body handler)
  (at level 10, body at level 200, handler at level 200).

Definition call {A} (r : Read A) : M A :=
  match r with
  | Raises => raise
  | Returns a => mret a
  end.

(** Python truthiness of an optional string: [None] and [''] are false. *)
Definition truthy (s : option string) : bool :=
  match s with
  | Some s => negb (bool_decide (s = ""))
  | None => false
  end.

(** ** [update_metrics], the body of the loop for one printer *)

(** The dictionary [state_mapping] of lines 417-424. *)
Definition state_mapping_items : list (string * Z) :=
  [ ("IDLE", 0); ("PRINTING", 1); ("RUNNING", 1); ("PAUSED", 2);
    ("FINISH", 3); ("FAILED", 4) ].

Definition state_mapping : gmap string Z := list_to_map state_mapping_items.

(** [state_mapping.get(s, 0)] *)
Definition state_code (s : string) : Z := default 0 (state_mapping !! s).

(** Lines 425-433: from [str(state)] and [gcode_state] to the number
    that is published. *)
Definition reconciled_name (state : string) (gcode_state : option string) : string :=
  let state_str := PyStr.upper state in
  if truthy gcode_state then
    let gcode_str := PyStr.upper (default "" gcode_state) in
    if bool_decide (is_Some (state_mapping !! gcode_str)) then gcode_str else state_str
  else state_str.

Definition state_value (state : string) (gcode_state : option string) : Z :=
  state_code (reconciled_name state gcode_state).

(** Line 388-389: [float(str(wifi_signal).replace('dBm', '').strip())]. *)
Definition signal_strength (wifi_signal : string) : option Value :=
  let signal_str := PyStr.strip (PyStr.replace "dBm" "" wifi_signal) in
  PyFloat.float signal_str.

Arguments signal_strength : simpl never.

(** Lines 398-399: [1 if str(light_state).lower() == 'on' else 0]. *)
Definition light_value (light_state : string) : Z :=
  let is_on := bool_decide (PyStr.lower light_state = "on") in
  if is_on then 1 else 0.

(** Line 443: [int(error_code) if error_code else 0]. *)
Definition error_value (error_code : Z) : Z :=
  if bool_decide (error_code ≠ 0) then error_code else 0.

Section update_printer.

Variable name : string.
Variable printer : Printer.
(** Whether a write to the gauge raises this cycle. *)
Variable sink_raises : metrics.Metric → bool.

(** [metrics.<gauge>.labels(...).set(v)] *)
Definition gauge_set (g : metrics.Metric) (labels : list string) (v : Value) : M unit :=
  λ bm,
    if sink_raises g then (Raised, bm)
    else (Ok (), <[g := <[labels := v]> (bm !!! g)]> bm).

(** [metrics.<gauge>.labels(...)] alone: the child of the combination,
    created at 0 when the gauge has none. In [gauge_set] the value
    written takes the place of that 0. *)
Definition gauge_labels (g : metrics.Metric) (labels : list string) : M unit :=
  λ bm,
    if sink_raises g then (Raised, bm)
    else
      match (bm !!! g) !! labels with
      | Some _ => (Ok (), bm)
      | None => (Ok (), <[g := <[labels := num 0]> (bm !!! g)]> bm)
      end.

(** [metrics.<gauge>._metrics.clear()] *)
Definition gauge_clear (g : metrics.Metric) : M unit :=
  λ bm, (Ok (), <[g := ∅]> bm).

(** Lines 276-287, the reset of the branch "not connected". *)
Definition reset_disconnected : M unit :=
  gauge_set metrics.nozzle_temp [name] (num 0);;
  gauge_set metrics.nozzle_target_temp [name] (num 0);;
  gauge_set metrics.bed_temp [name] (num 0);;
  gauge_set metrics.bed_target_temp [name] (num 0);;
  gauge_set metrics.chamber_temp [name] (num 0);;
  gauge_set metrics.print_progress [name] (num 0);;
  gauge_set metrics.print_remaining_time [name] (num 0);;
  gauge_set metrics.current_layer [name] (num 0);;
  gauge_set metrics.total_layers [name] (num 0);;
  gauge_set metrics.print_speed [name] (num 0);;
  gauge_set metrics.error_code [name] (num 0);;
  gauge_set metrics.printer_state [name] (num 0).

(** Lines 327-338, the reset of the branch "connected but no data". *)
Definition reset_silent : M unit :=
  gauge_set metrics.nozzle_temp [name] (num 0);;
  gauge_set metrics.nozzle_target_temp [name] (num 0);;
  gauge_set metrics.bed_temp [name] (num 0);;
  gauge_set metrics.bed_target_temp [name] (num 0);;
  gauge_set metrics.chamber_temp [name] (num 0);;
  gauge_set metrics.print_progress [name] (num 0);;
  gauge_set metrics.print_remaining_time [name] (num 0);;
  gauge_set metrics.current_layer [name] (num 0);;
  gauge_set metrics.total_layers [name] (num 0);;
  gauge_set metrics.print_speed [name] (num 0);;
  gauge_set metrics.error_code [name] (num 0);;
  gauge_set metrics.printer_state [name] (num 0).

(** Lines 294-317. Each block answers whether it set [data_received]. *)
Definition read_nozzle_temp : M bool :=
  TRY
    nozzle_temp ← call (get_nozzle_temperature printer);
    match nozzle_temp with
    | Some t => gauge_set metrics.nozzle_temp [name] (Num t);; mret true
    | None => mret false
    end
  EXCEPT mret false.

Definition read_bed_temp : M bool :=
  TRY
    bed_temp ← call (get_bed_temperature printer);
    match bed_temp with
    | Some t => gauge_set metrics.bed_temp [name] (Num t);; mret true
    | None => mret false
    end
  EXCEPT mret false.

Definition read_chamber_temp : M bool :=
  TRY
    chamber_temp ← call (get_chamber_temperature printer);
    match chamber_temp with
    | Some t => gauge_set metrics.chamber_temp [name] (Num t);; mret true
    | None => mret false
    end
  EXCEPT mret false.

(** Lines 291-317: the value of [data_received] at line 320. *)
Definition read_temperatures : M bool :=
  d1 ← read_nozzle_temp;
  d2 ← read_bed_temp;
  d3 ← read_chamber_temp;
  mret (d1 || d2 || d3).

(** Lines 343-348. *)
Definition read_progress : M unit :=
  TRY
    progress ← call (get_percentage printer);
    match progress with
    | Some v => gauge_set metrics.print_progress [name] (Num v)
    | None => mret ()
    end
  EXCEPT mret ().

(** Lines 350-356. *)
Definition read_remaining_time : M unit :=
  TRY
    remaining_time ← call (get_time printer);
    match remaining_time with
    | Some m => gauge_set metrics.print_remaining_time [name] (Num (m * 60)%Q)
    | None => mret ()
    end
  EXCEPT mret ().

(** Lines 358-363. *)
Definition read_current_layer : M unit :=
  TRY
    current_layer ← call (current_layer_num printer);
    match current_layer with
    | Some v => gauge_set metrics.current_layer [name] (Num v)
    | None => mret ()
    end
  EXCEPT mret ().

(** Lines 365-370. *)
Definition read_total_layers : M unit :=
  TRY
    total_layers ← call (total_layer_num printer);
    match total_layers with
    | Some v => gauge_set metrics.total_layers [name] (Num v)
    | None => mret ()
    end
  EXCEPT mret ().

(** Lines 373-381. *)
Definition read_print_speed : M unit :=
  TRY
    print_speed ← call (get_print_speed printer);
    match print_speed with
    | Some v => gauge_set metrics.print_speed [name] (Num v)
    | None => mret ()
    end
  EXCEPT mret ().

(** Lines 384-391. At line 389 [labels(printer=name)] is evaluated
    before the argument [float(signal_str)]: when [float] raises
    [ValueError], which is caught here too, the child exists already. *)
Definition read_wifi_signal : M unit :=
  TRY
    wifi ← call (wifi_signal printer);
    match wifi with
    | Some w =>
        match signal_strength w with
        | Some v => gauge_set metrics.wifi_signal [name] v
        | None => gauge_labels metrics.wifi_signal [name];; raise
        end
    | None => mret ()
    end
  EXCEPT mret ().

(** Lines 394-401. *)
Definition read_light_state : M unit :=
  TRY
    light_state ← call (get_light_state printer);
    match light_state with
    | Some l => gauge_set metrics.chamber_light [name] (num (light_value l))
    | None => mret ()
    end
  EXCEPT mret ().

(** Lines 404-437. The inner [try] around [printer.gcode_state] has a
    bare [except: pass]. *)
Definition read_state : M unit :=
  TRY
    state ← call (get_state printer);
    gcode ← (TRY call (gcode_state printer) EXCEPT mret None);
    match state with
    | Some st => gauge_set metrics.printer_state [name] (num (state_value st gcode))
    | None => mret ()
    end
  EXCEPT mret ().

(** Lines 440-445. *)
Definition read_error_code : M unit :=
  TRY
    error_code ← call (print_error_code printer);
    match error_code with
    | Some e => gauge_set metrics.error_code [name] (num (error_value e))
    | None => mret ()
    end
  EXCEPT mret ().

(** Lines 448-459. *)
Definition read_file_name : M unit :=
  TRY
    filename ← call (get_file_name printer);
    if truthy filename then
      gauge_clear metrics.current_file;;
      gauge_set metrics.current_file [name; default "" filename] (num 1)
    else mret ()
  EXCEPT mret ().

(** Lines 462-474. *)
Definition read_nozzle_info : M unit :=
  TRY
    ty ← call (nozzle_type printer);
    diameter ← call (nozzle_diameter printer);
    match ty, diameter with
    | Some t, Some d =>
        gauge_clear metrics.nozzle_info;;
        gauge_set metrics.nozzle_info [name; t; d] (num 1)
    | _, _ => mret ()
    end
  EXCEPT mret ().

(** Lines 343-476: what follows the liveness decision when data was
    received. *)
Definition read_remaining_fields : M unit :=
  read_progress;;
  read_remaining_time;;
  read_current_layer;;
  read_total_layers;;
  read_print_speed;;
  read_wifi_signal;;
  read_light_state;;
  read_state;;
  read_error_code;;
  read_file_name;;
  read_nozzle_info.

(** Lines 270-476: the body of the outer [try] once [metrics] is
    bound; the two [continue] end the branches they stand in. *)
Definition update_printer : M unit :=
  connected ← call (mqtt_client_connected printer);
  if negb connected then
    gauge_set metrics.printer_online [name] (num 0);;
    reset_disconnected
  else
    data_received ← read_temperatures;
    if data_received : bool then
      gauge_set metrics.printer_online [name] (num 1);;
      read_remaining_fields
    else
      gauge_set metrics.printer_online [name] (num 0);;
      reset_silent.

(** Line 480, the handler of the outer [try]. *)
Definition on_error : M unit :=
  gauge_set metrics.printer_online [name] (num 0).

End update_printer.

Arguments state_value : simpl never.
Arguments light_value : simpl never.
Arguments error_value : simpl never.

(** ** [update_metrics] and the polling loop *)

(** One entry of [self.printers] during one cycle: what the client
    answers and which gauges of its [BambuMetrics] refuse a write. *)
Record Device : Type := {
  dev_printer : Printer;
  dev_sink_raises : metrics.Metric → bool
}.

(** Lines 264-480. [self.printers] is iterated in insertion order;
    [self.metrics[name]] raises [KeyError] when the entry is missing,
    at line 268 and again in the handler at line 480, which lets the
    exception leave the loop. The same happens when the handler's own
    write raises. *)
Fixpoint update_metrics (printers : list (string * Device))
    (self_metrics : gmap string BambuMetrics)
  : outcome unit * gmap string BambuMetrics :=
  match printers with
  | [] => (Ok (), self_metrics)
  | (name, d) :: rest =>
      match self_metrics !! name with
      | None => (Raised, self_metrics)
      | Some bm =>
          match update_printer name (dev_printer d) (dev_sink_raises d) bm with
          | (Ok _, bm') => update_metrics rest (<[name := bm']> self_metrics)
          | (Raised, bm') =>
              match on_error name (dev_sink_raises d) bm' with
              | (Ok _, bm'') => update_metrics rest (<[name := bm'']> self_metrics)
              | (Raised, bm'') => (Raised, <[name := bm'']> self_metrics)
              end
          end
      end
  end.

(** Lines 517-523: one [update_metrics] per cycle; an exception that
    leaves it is logged and the loop goes on. *)
Fixpoint run (cycles : list (list (string * Device)))
    (self_metrics : gmap string BambuMetrics) : gmap string BambuMetrics :=
  match cycles with
  | [] => self_metrics
  | c :: cycles' => run cycles' (update_metrics c self_metrics).2
  end.

(** The gauges of one printer after a sequence of cycles. *)
Definition after_cycles (name : string) (cycles : list Device) (bm : BambuMetrics)
  : BambuMetrics :=
  foldl (λ bm d, (update_printer name (dev_printer d) (dev_sink_raises d) bm).2) bm cycles.

(** Lines 245-248: a fresh [BambuMetrics] with the online gauge at 1. *)
Definition connected_metrics (name : string) : BambuMetrics :=
  {[ metrics.printer_online := {[ [name] := num 1 ]} ]}.

(** The state a statement leaves behind. *)
Definition exec {A} (c : M A) (bm : BambuMetrics) : BambuMetrics := (c bm).2.

(** The value a plain gauge shows for the printer. *)
Definition shown (g : metrics.Metric) (name : string) (bm : BambuMetrics) : option Value :=
  (bm !!! g) !! [name].

(** ** Liveness, as the branches of [update_printer] decide it *)

Inductive Liveness : Set := ONLINE | OFFLINE_SILENT | OFFLINE_DISCONNECTED.

#[export] Instance Liveness_eq_dec : EqDecision Liveness.
Proof. solve_decision. Defined.

(** Lines 271 and 320: which branch the cycle takes. [None] when the
    connectivity check itself raises. *)
Definition liveness (name : string) (p : Printer) (sink_raises : metrics.Metric → bool)
    (bm : BambuMetrics) : option Liveness :=
  match mqtt_client_connected p with
  | Raises => None
  | Returns false => Some OFFLINE_DISCONNECTED
  | Returns true =>
      match read_temperatures name p sink_raises bm with
      | (Ok true, _) => Some ONLINE
      | _ => Some OFFLINE_SILENT
      end
  end.

Definition present {A} (r : Read (option A)) : bool :=
  match r with
  | Returns (Some _) => true
  | _ => false
  end.

(** A temperature getter returned a value this cycle. *)
Definition temperature_returned_data (p : Printer) : bool :=
  present (get_nozzle_temperature p) || present (get_bed_temperature p)
  || present (get_chamber_temperature p).

(** The value of [gcode_state] after the inner [try]. *)
Definition granular (p : Printer) : option string :=
  match gcode_state p with
  | Returns g => g
  | Raises => None
  end.

(** ** The specification's wording, for comparison with the code *)

Module Spec.

(** "any telemetry field returned data": every field of the collector
    counts. *)
Definition any_field_returned_data (p : Printer) : bool :=
  present (get_nozzle_temperature p) || present (get_bed_temperature p)
  || present (get_chamber_temperature p) || present (get_percentage p)
  || present (get_time p) || present (current_layer_num p)
  || present (total_layer_num p) || present (get_print_speed p)
  || present (wifi_signal p) || present (get_light_state p)
  || present (get_state p) || present (gcode_state p)
  || present (print_error_code p) || present (get_file_name p)
  || present (nozzle_type p) || present (nozzle_diameter p).

(** The ordered rule of the liveness evaluator. *)
Definition liveness (p : Printer) : option Liveness :=
  match mqtt_client_connected p with
  | Raises => None
  | Returns false => Some OFFLINE_DISCONNECTED
  | Returns true =>
      if any_field_returned_data p then Some ONLINE else Some OFFLINE_SILENT
  end.

Definition online_value (l : Liveness) : Z :=
  match l with
  | ONLINE => 1
  | _ => 0
  end.

(** The stable encoding as the specification lists it. *)
Definition encoding : list (string * Z) :=
  [ ("IDLE", 0); ("PRINTING", 1); ("PAUSED", 2); ("FINISHED", 3); ("FAILED", 4) ].

(** The protocol of a dynamic-label update: (a) remove every
    combination, (b) set the present one to 1. *)
Definition dynamic_update (labels : option (list string)) (g : Gauge) : Gauge :=
  match labels with
  | Some l => <[l := num 1]> (∅ : Gauge)
  | None => ∅
  end.

(** The telemetry gauges, those of the fields of the collector. *)
Definition telemetry_gauges : list metrics.Metric :=
  [ metrics.nozzle_temp; metrics.nozzle_target_temp; metrics.bed_temp;
    metrics.bed_target_temp; metrics.chamber_temp; metrics.print_progress;
    metrics.print_remaining_time; metrics.current_layer; metrics.total_layers;
    metrics.print_speed; metrics.wifi_signal; metrics.chamber_light;
    metrics.printer_state; metrics.error_code ].

(** A read that failed is recorded as absent. *)
Definition caught {A} (r : Read (option A)) : Read (option A) :=
  match r with
  | Raises => Returns None
  | Returns a => Returns a
  end.

(** The client with every failing field read replaced by an absent
    answer; the connectivity check is kept. *)
Definition absent_on_failure (p : Printer) : Printer :=
  {| mqtt_client_connected := mqtt_client_connected p;
     get_nozzle_temperature := caught (get_nozzle_temperature p);
     get_bed_temperature := caught (get_bed_temperature p);
     get_chamber_temperature := caught (get_chamber_temperature p);
     get_percentage := caught (get_percentage p);
     get_time := caught (get_time p);
     current_layer_num := caught (current_layer_num p);
     total_layer_num := caught (total_layer_num p);
     get_print_speed := caught (get_print_speed p);
     wifi_signal := caught (wifi_signal p);
     get_light_state := caught (get_light_state p);
     get_state := caught (get_state p);
     gcode_state := caught (gcode_state p);
     print_error_code := caught (print_error_code p);
     get_file_name := caught (get_file_name p);
     nozzle_type := caught (nozzle_type p);
     nozzle_diameter := caught (nozzle_diameter p) |}.

(** At most one combination, and it reads 1. *)
Definition single_active (g : Gauge) : Prop :=
  ∀ l1 l2 v1 v2, g !! l1 = Some v1 → g !! l2 = Some v2 → l1 = l2 ∧ v1 = num 1.

(** The value behind a dynamic-label gauge is absent this cycle: the
    file name is missing or empty, or the nozzle type or diameter is
    missing; a read that raises counts as missing. *)
Definition dynamic_value_absent (p : Printer) (g : metrics.Metric) : Prop :=
  match g with
  | metrics.current_file =>
      match get_file_name p with
      | Raises => True
      | Returns f => truthy f = false
      end
  | metrics.nozzle_info =>
      match nozzle_type p with
      | Raises | Returns None => True
      | Returns (Some _) =>
          match nozzle_diameter p with
          | Raises | Returns None => True
          | Returns (Some _) => False
          end
      end
  | _ => False
  end.

End Spec.

(** ** Sample cycles *)

Module Sample.

Definition sink_ok : metrics.Metric → bool := λ _, false.
Definition sink_down : metrics.Metric → bool := λ _, true.
(** Only the writes to [g] raise. *)
Definition sink_rejects (g : metrics.Metric) : metrics.Metric → bool :=
  λ g', bool_decide (g' = g).

(** A printer that is connected and reports the given answers; the
    fields not listed return [None]. *)
Definition reporting (nozzle bed : Read (option Q)) (progress : option Q)
    (state gcode wifi light file : option string) : Printer :=
  {| mqtt_client_connected := Returns true;
     get_nozzle_temperature := nozzle;
     get_bed_temperature := bed;
     get_chamber_temperature := Returns None;
     get_percentage := Returns progress;
     get_time := Returns None;
     current_layer_num := Returns None;
     total_layer_num := Returns None;
     get_print_speed := Returns None;
     wifi_signal := Returns wifi;
     get_light_state := Returns light;
     get_state := Returns state;
     gcode_state := Returns gcode;
     print_error_code := Returns None;
     get_file_name := Returns file;
     nozzle_type := Returns None;
     nozzle_diameter := Returns None |}.

Definition hot : Read (option Q) := Returns (Some (421 # 2)%Q).
Definition warm : Read (option Q) := Returns (Some (60 # 1)%Q).

(** Printing [file], every temperature reported. *)
Definition printing (file : option string) : Printer :=
  reporting hot warm (Some (50 # 1)%Q) (Some "PRINTING") None
    (Some "-63dBm") (Some "on") file.

(** The transport link is down. *)
Definition unplugged : Printer :=
  {| mqtt_client_connected := Returns false;
     get_nozzle_temperature := Returns None;
     get_bed_temperature := Returns None;
     get_chamber_temperature := Returns None;
     get_percentage := Returns None;
     get_time := Returns None;
     current_layer_num := Returns None;
     total_layer_num := Returns None;
     get_print_speed := Returns None;
     wifi_signal := Returns None;
     get_light_state := Returns None;
     get_state := Returns None;
     gcode_state := Returns None;
     print_error_code := Returns None;
     get_file_name := Returns None;
     nozzle_type := Returns None;
     nozzle_diameter := Returns None |}.

(** No temperature, but progress, state and file are reported. *)
Definition no_temperature (nozzle : Read (option Q)) : Printer :=
  reporting nozzle (Returns None) (Some (50 # 1)%Q) (Some "PRINTING") None
    None None (Some "a.gcode").

(** The connectivity check raises. *)
Definition unreachable : Printer :=
  {| mqtt_client_connected := Raises;
     get_nozzle_temperature := hot;
     get_bed_temperature := warm;
     get_chamber_temperature := Returns None;
     get_percentage := Returns None;
     get_time := Returns None;
     current_layer_num := Returns None;
     total_layer_num := Returns None;
     get_print_speed := Returns None;
     wifi_signal := Returns None;
     get_light_state := Returns None;
     get_state := Returns None;
     gcode_state := Returns None;
     print_error_code := Returns None;
     get_file_name := Returns None;
     nozzle_type := Returns None;
     nozzle_diameter := Returns None |}.

Definition device (p : Printer) (sink : metrics.Metric → bool) : Device :=
  {| dev_printer := p; dev_sink_raises := sink |}.

(** The gauges of "p1" after one cycle of printing "a.gcode". *)
Definition after_first_cycle : BambuMetrics :=
  exec (update_printer "p1" (printing (Some "a.gcode")) sink_ok) (connected_metrics "p1").

End Sample.

(** ** Predicates used in the proofs *)

(** The statement leaves gauge [g] as it found it, whether it raises or
    not. *)
Definition preserves {A} (g : metrics.Metric) (c : M A) : Prop :=
  ∀ bm, exec c bm !!! g = bm !!! g.

(** The statement never raises. *)
Definition total {A} (c : M A) : Prop :=
  ∀ bm, ∃ a, (c bm).1 = Ok a.

(** A temperature getter returned a value and the sink took it: the
    condition under which a block sets [data_received]. *)
Definition temperature_published (p : Printer) (sink_raises : metrics.Metric → bool) : bool :=
  (present (get_nozzle_temperature p) && negb (sink_raises metrics.nozzle_temp))
  || (present (get_bed_temperature p) && negb (sink_raises metrics.bed_temp))
  || (present (get_chamber_temperature p) && negb (sink_raises metrics.chamber_temp)).

(** The names the code recognizes: the keys of [state_mapping]. *)
Definition recognized (s : string) : Prop := s ∈ state_mapping_items.*1.

(** ** [BambuMetrics.__init__]: the label names of the gauges *)

(** Lines 25-127: every gauge is declared with [labels = ['printer']];
    the two dynamic-label gauges append their own names. *)
Definition labelnames (g : metrics.Metric) : list string :=
  let labels := ["printer"] in
  match g with
  | metrics.current_file => labels ++ ["filename"]
  | metrics.nozzle_info => labels ++ ["nozzle_type"; "nozzle_diameter_mm"]
  | _ => labels
  end.

(** ** [connect_printers] *)

(** One entry of [config['printers']]; [None] stands for a missing key. *)
Record PrinterConfig : Type := {
  cfg_enabled : option bool;
  cfg_name : option string;
  cfg_ip : option string;
  cfg_access_code : option string;
  cfg_serial : option string
}.

(** What the calls in the [try] block of lines 237-250 do for an entry:
    [bl.Printer(...)] or [printer.connect()] raising, [BambuMetrics(name)]
    raising, the first write of the online gauge raising. *)
Record Connecting : Type := {
  connect_raises : bool;
  metrics_raise : bool;
  online_raises : bool
}.

(** The object [bl.Printer(ip, access_code, serial)]. *)
Record Handle : Type := {
  h_ip : string;
  h_access_code : string;
  h_serial : string
}.

(** [self.printers], a dictionary in insertion order, and [self.metrics]. *)
Record Exporter : Type := {
  exp_printers : list (string * Handle);
  exp_metrics : gmap string BambuMetrics
}.

(** [d[k] = v] on a dictionary kept in insertion order: a key that is
    already there keeps its place. *)
Fixpoint dict_set {V : Type} (k : string) (v : V) (d : list (string * V)) : list (string * V) :=
  match d with
  | [] => [(k, v)]
  | (k', v') :: d' =>
      if decide (k' = k) then (k, v) :: d' else (k', v') :: dict_set k v d'
  end.

(** Lines 227-253, the body of the loop. The four subscripts stand
    before the [try]: a missing key raises [KeyError] out of the loop. *)
Definition connect_printer (c : PrinterConfig) (e : Connecting) (st : Exporter)
  : outcome unit * Exporter :=
  if negb (default true (cfg_enabled c)) then (Ok (), st)
  else
    match cfg_name c, cfg_ip c, cfg_access_code c, cfg_serial c with
    | Some name, Some ip, Some access_code, Some serial =>
        if connect_raises e then (Ok (), st)
        else
          let printer := {| h_ip := ip; h_access_code := access_code; h_serial := serial |} in
          let printers := dict_set name printer (exp_printers st) in
          if metrics_raise e then
            (Ok (), {| exp_printers := printers; exp_metrics := exp_metrics st |})
          else
            let bm :=
              exec (gauge_set (λ _, online_raises e) metrics.printer_online [name] (num 1))
                (∅ : BambuMetrics) in
            (Ok (), {| exp_printers := printers;
                       exp_metrics := <[name := bm]> (exp_metrics st) |})
    | _, _, _, _ => (Raised, st)
    end.

(** Lines 224-253. *)
Fixpoint connect_printers (config : list (PrinterConfig * Connecting)) (st : Exporter)
  : outcome unit * Exporter :=
  match config with
  | [] => (Ok (), st)
  | (c, e) :: config' =>
      match connect_printer c e st with
      | (Ok _, st') => connect_printers config' st'
      | (Raised, st') => (Raised, st')
      end
  end.

(** Lines 144-145: the exporter before any printer is connected. *)
Definition new_exporter : Exporter := {| exp_printers := []; exp_metrics := ∅ |}.

(** The entry is enabled, complete, and its connection does not raise:
    the entries that [connect_printers] registers. *)
Definition registers (name : string) (ce : PrinterConfig * Connecting) : Prop :=
  default true (cfg_enabled ce.1) = true
  ∧ cfg_name ce.1 = Some name
  ∧ is_Some (cfg_ip ce.1) ∧ is_Some (cfg_access_code ce.1) ∧ is_Some (cfg_serial ce.1)
  ∧ connect_raises ce.2 = false.

(** ** One printer in [update_metrics], with the handler of line 480 *)

Definition device_cycle (name : string) (d : Device) (bm : BambuMetrics) : BambuMetrics :=
  match update_printer name (dev_printer d) (dev_sink_raises d) bm with
  | (Ok _, bm') => bm'
  | (Raised, bm') => exec (on_error name (dev_sink_raises d)) bm'
  end.

(** ** The fields that are published as they are read *)

(** The getter behind each gauge of lines 294-317, 343-348 and 358-381. *)
Definition plain_getter (p : Printer) (g : metrics.Metric) : option (Read (option Q)) :=
  match g with
  | metrics.nozzle_temp => Some (get_nozzle_temperature p)
  | metrics.bed_temp => Some (get_bed_temperature p)
  | metrics.chamber_temp => Some (get_chamber_temperature p)
  | metrics.print_progress => Some (get_percentage p)
  | metrics.current_layer => Some (current_layer_num p)
  | metrics.total_layers => Some (total_layer_num p)
  | metrics.print_speed => Some (get_print_speed p)
  | _ => None
  end.

(** What an ONLINE cycle publishes for the printer under each plain
    gauge, read off the blocks of lines 294-445; [None] where the field
    delivered no value that can be published. *)
Definition reported (p : Printer) (g : metrics.Metric) : option Value :=
  match g with
  | metrics.printer_online => Some (num 1)
  | metrics.print_remaining_time =>
      match get_time p with
      | Returns (Some m) => Some (Num (m * 60)%Q)
      | _ => None
      end
  | metrics.wifi_signal =>
      match wifi_signal p with
      | Returns (Some w) => signal_strength w
      | _ => None
      end
  | metrics.chamber_light =>
      match get_light_state p with
      | Returns (Some l) => Some (num (light_value l))
      | _ => None
      end
  | metrics.printer_state =>
      match get_state p with
      | Returns (Some state) => Some (num (state_value state (granular p)))
      | _ => None
      end
  | metrics.error_code =>
      match print_error_code p with
      | Returns (Some e) => Some (num e)
      | _ => None
      end
  | metrics.current_file | metrics.nozzle_info
  | metrics.nozzle_target_temp | metrics.bed_target_temp => None
  | _ =>
      match plain_getter p g with
      | Some (Returns (Some v)) => Some (Num v)
      | _ => None
      end
  end.

(** The field behind the gauge delivered nothing this cycle: its getter
    raised or returned [None] (for the dynamic-label gauges, the value
    is absent); no field stands behind the two target temperatures. *)
Definition delivers_nothing (p : Printer) (g : metrics.Metric) : Prop :=
  match g with
  | metrics.printer_online => False
  | metrics.nozzle_target_temp | metrics.bed_target_temp => True
  | metrics.print_remaining_time => present (get_time p) = false
  | metrics.wifi_signal => present (wifi_signal p) = false
  | metrics.chamber_light => present (get_light_state p) = false
  | metrics.printer_state => present (get_state p) = false
  | metrics.error_code => present (print_error_code p) = false
  | metrics.current_file | metrics.nozzle_info => Spec.dynamic_value_absent p g
  | _ =>
      match plain_getter p g with
      | Some r => present r = false
      | None => False
      end
  end.

(** The gauges that the offline reset writes. *)
Definition reset_gauges : list metrics.Metric :=
  [ metrics.nozzle_temp; metrics.nozzle_target_temp; metrics.bed_temp;
    metrics.bed_target_temp; metrics.chamber_temp; metrics.print_progress;
    metrics.print_remaining_time; metrics.current_layer; metrics.total_layers;
    metrics.print_speed; metrics.error_code; metrics.printer_state ].

(** ** Well-formed samples *)

(** The values a gauge can hold. *)
Definition value_ok (g : metrics.Metric) (v : Value) : Prop :=
  match g with
  | metrics.printer_online | metrics.chamber_light => v = num 0 ∨ v = num 1
  | metrics.printer_state => ∃ z, v = num z ∧ 0 ≤ z ≤ 4
  | metrics.current_file | metrics.nozzle_info => v = num 1
  | metrics.nozzle_target_temp | metrics.bed_target_temp => v = num 0
  | metrics.error_code => ∃ z, v = num z
  | metrics.wifi_signal => True
  | _ => ∃ q, v = Num q
  end.

(** The label values a gauge of printer [name] can carry: as many as
    the gauge declares label names, the first one being the printer. *)
Definition labels_ok (name : string) (g : metrics.Metric) (labels : list string) : Prop :=
  length labels = length (labelnames g) ∧ head labels = Some name.

Definition well_formed (name : string) (bm : BambuMetrics) : Prop :=
  ∀ g labels v, (bm !!! g) !! labels = Some v → labels_ok name g labels ∧ value_ok g v.

(** The statement keeps a property of the gauges, whether it raises or
    not. *)
Definition keeps {A : Type} (I : BambuMetrics → Prop) (c : M A) : Prop :=
  ∀ bm, I bm → I (exec c bm).

(** ** The effect of a statement, gauge by gauge *)

(** What a statement does to a gauge: it may empty it, it leaves some
    combinations written, and it leaves some created at their initial
    value unless they are there already. *)
Record Effect : Type := {
  eff_writes : metrics.Metric → Gauge;
  eff_clears : metrics.Metric → bool;
  eff_creates : metrics.Metric → Gauge
}.

Definition eff_apply (e : Effect) (g : metrics.Metric) (old : Gauge) : Gauge :=
  eff_writes e g ∪ (if eff_clears e g then ∅ else old) ∪ eff_creates e g.

Definition eff_none : Effect :=
  {| eff_writes := λ _, ∅; eff_clears := λ _, false; eff_creates := λ _, ∅ |}.

(** [e1], then [e2]. *)
Definition eff_then (e1 e2 : Effect) : Effect :=
  {| eff_writes := λ g, eff_writes e2 g ∪ (if eff_clears e2 g then ∅ else eff_writes e1 g);
     eff_clears := λ g, eff_clears e2 g || eff_clears e1 g;
     eff_creates := λ g, (if eff_clears e2 g then ∅ else eff_creates e1 g) ∪ eff_creates e2 g |}.

(** The statement ends the same way from every state and acts on each
    gauge by [e]. *)
Definition summarised {A : Type} (c : M A) (o : outcome A) (e : Effect) : Prop :=
  ∀ bm, (c bm).1 = o ∧ ∀ g, exec c bm !!! g = eff_apply e g (bm !!! g).

Definition has_summary {A : Type} (c : M A) : Prop := ∃ o e, summarised c o e.

(** ** Sample configurations *)

Module SampleConfig.

(** A complete entry for the printer [name]. *)
Definition entry (name : string) (enabled : option bool) : PrinterConfig :=
  {| cfg_enabled := enabled;
     cfg_name := Some name;
     cfg_ip := Some "192.168.1.100";
     cfg_access_code := Some "12345678";
     cfg_serial := Some "TEST123" |}.

(** An entry without the key [serial]. *)
Definition incomplete (name : string) : PrinterConfig :=
  {| cfg_enabled := None;
     cfg_name := Some name;
     cfg_ip := Some "192.168.1.100";
     cfg_access_code := Some "12345678";
     cfg_serial := None |}.

Definition connects : Connecting :=
  {| connect_raises := false; metrics_raise := false; online_raises := false |}.

Definition refused : Connecting :=
  {| connect_raises := true; metrics_raise := false; online_raises := false |}.

(** The connection succeeds but [BambuMetrics(name)] raises. *)
Definition without_metrics : Connecting :=
  {| connect_raises := false; metrics_raise := true; online_raises := false |}.

(** Two printers, the second one registered without metrics. *)
Definition half_registered : Exporter :=
  (connect_printers [(entry "p1" None, connects); (entry "p2" (Some true), without_metrics)]
     new_exporter).2.

End SampleConfig.

(** * Properties *)

(** ** Statements: frame and totality rules *)

Section rules.

Context {A B : Type}.
Implicit Types (g : metrics.Metric) (bm : BambuMetrics).

Lemma preserves_ret g (a : A) : preserves g (mret a : M A).
Proof. by intros bm. Qed.

Lemma preserves_raise g : preserves g (raise : M A).
Proof. by intros bm. Qed.

Lemma preserves_call g (r : Read A) : preserves g (call r).
Proof. by destruct r; intros bm. Qed.

Lemma preserves_bind g (c : M A) (k : A → M B) :
  preserves g c → (∀ a, preserves g (k a)) → preserves g (c ≫= k).
Proof.
  intros Hc Hk bm. specialize (Hc bm). unfold exec, mbind, M_bind in *.
  destruct (c bm) as [[a|] bm']; simpl in *; [|done].
  rewrite <- Hc. apply Hk.
Qed.

Lemma preserves_try g (body handler : M A) :
  preserves g body → preserves g handler → preserves g (TRY body EXCEPT handler).
Proof.
  intros Hb Hh bm. specialize (Hb bm). unfold exec, try_except in *.
  destruct (body bm) as [[a|] bm']; simpl in *; [done|].
  rewrite <- Hb. apply Hh.
Qed.

Lemma preserves_call_bind g (r : Read A) (k : A → M B) :
  (∀ a, r = Returns a → preserves g (k a)) → preserves g (call r ≫= k).
Proof.
  intros Hk. destruct r as [|a]; [by intros bm|].
  intros bm. by apply Hk.
Qed.

Lemma total_ret (a : A) : total (mret a : M A).
Proof. intros bm. by exists a. Qed.

Lemma total_try (body handler : M A) : total handler → total (TRY body EXCEPT handler).
Proof.
  intros Hh bm. unfold try_except.
  destruct (body bm) as [[a|] bm']; [by exists a | apply Hh].
Qed.

Lemma total_bind (c : M A) (k : A → M B) :
  total c → (∀ a, total (k a)) → total (c ≫= k).
Proof.
  intros Hc Hk bm. destruct (Hc bm) as [a Ha]. unfold mbind, M_bind.
  destruct (c bm) as [[a'|] bm']; simpl in *; [apply Hk | done].
Qed.

(** A statement that cannot raise hands its state to what follows. *)
Lemma exec_bind (c : M A) (k : A → M B) bm :
  total c → ∃ a, (c bm).1 = Ok a ∧ (c ≫= k) bm = k a (exec c bm).
Proof.
  intros Hc. destruct (Hc bm) as [a Ha]. exists a. split; [done|].
  unfold exec, mbind, M_bind. by destruct (c bm) as [[a'|] bm']; simplify_eq/=.
Qed.

End rules.

Lemma exec_seq {B} (c : M unit) (k : M B) bm :
  total c → (c ;; k) bm = k (exec c bm).
Proof. intros Hc. by destruct (exec_bind c (λ _, k) bm Hc) as ([] & _ & ->). Qed.

Lemma exec_then {B} (c : M unit) (k : M B) bm :
  total c → exec (c ;; k) bm = exec k (exec c bm).
Proof. intros Hc. unfold exec at 1. by rewrite exec_seq. Qed.

Section sink_rules.

Variable sink_raises : metrics.Metric → bool.
Implicit Types (g : metrics.Metric) (bm : BambuMetrics).

Lemma preserves_gauge_set g g' labels v :
  g ≠ g' → preserves g (gauge_set sink_raises g' labels v).
Proof.
  intros Hne bm. unfold exec, gauge_set.
  destruct (sink_raises g'); simpl; [done|]. by rewrite lookup_total_insert_ne.
Qed.

Lemma preserves_gauge_labels g g' labels :
  g ≠ g' → preserves g (gauge_labels sink_raises g' labels).
Proof.
  intros Hne bm. unfold exec, gauge_labels.
  destruct (sink_raises g'); simpl; [done|].
  destruct ((bm !!! g') !! labels); simpl; [done|]. by rewrite lookup_total_insert_ne.
Qed.

Lemma preserves_gauge_clear g g' : g ≠ g' → preserves g (gauge_clear g').
Proof. intros Hne bm. unfold exec, gauge_clear; simpl. by rewrite lookup_total_insert_ne. Qed.

Lemma gauge_set_ok g labels v bm :
  sink_raises g = false →
  gauge_set sink_raises g labels v bm = (Ok (), <[g := <[labels := v]> (bm !!! g)]> bm).
Proof. intros H. unfold gauge_set. by rewrite H. Qed.

Lemma gauge_set_fails g labels v bm :
  sink_raises g = true → gauge_set sink_raises g labels v bm = (Raised, bm).
Proof. intros H. unfold gauge_set. by rewrite H. Qed.

Lemma total_gauge_set g labels v :
  sink_raises g = false → total (gauge_set sink_raises g labels v).
Proof. intros H bm. rewrite gauge_set_ok by done. by eexists. Qed.

Lemma exec_gauge_set g labels v bm :
  sink_raises g = false →
  exec (gauge_set sink_raises g labels v) bm !!! g = <[labels := v]> (bm !!! g).
Proof.
  intros H. unfold exec. rewrite gauge_set_ok by done. apply lookup_total_insert_eq.
Qed.

End sink_rules.

(** Decomposes a frame goal along the structure of the statement. *)
Ltac preserve_step :=
  first
    [ apply preserves_ret
    | apply preserves_raise
    | apply preserves_call
    | apply preserves_gauge_set; discriminate
    | apply preserves_gauge_labels; discriminate
    | apply preserves_gauge_clear; discriminate
    | apply preserves_try
    | apply preserves_call_bind; intros ? ?; simplify_eq
    | apply preserves_bind; [| intros ?]
    | match goal with
      | |- preserves _ (match ?x with _ => _ end) => destruct x
      end ].

Ltac preserve := repeat preserve_step.

Ltac totality :=
  repeat first
    [ apply total_ret
    | apply total_try
    | apply total_bind; [| intros ?] ].

(** Evaluates the statement combinators. *)
Ltac run :=
  unfold exec, try_except, call, raise, mbind, M_bind, mret, M_ret,
    gauge_set, gauge_labels, gauge_clear; simpl.

(** Removes from a lookup the statements that leave the gauge alone. *)
Ltac frame_out unf :=
  repeat match goal with
    | |- context [exec ?c ?bm !!! ?g] =>
        let H := fresh "Hframe" in
        assert (H : preserves g c) by (unf; preserve);
        rewrite (H bm); clear H
    end.

(** ** The blocks of one printer *)

Ltac unfold_blocks :=
  unfold read_temperatures, read_nozzle_temp, read_bed_temp, read_chamber_temp,
    read_remaining_fields, read_progress, read_remaining_time, read_current_layer,
    read_total_layers, read_print_speed, read_wifi_signal, read_light_state,
    read_state, read_error_code, read_file_name, read_nozzle_info,
    reset_disconnected, reset_silent, on_error.

Section blocks.

Variable name : string.
Variable p : Printer.
Variable sr : metrics.Metric → bool.
Implicit Types (g : metrics.Metric) (bm : BambuMetrics).

Lemma total_read_remaining_fields : total (read_remaining_fields name p sr).
Proof. unfold_blocks. totality. Qed.

(** The temperature blocks write the three temperature gauges only. *)
Lemma read_temperatures_frame g :
  g ≠ metrics.nozzle_temp → g ≠ metrics.bed_temp → g ≠ metrics.chamber_temp →
  preserves g (read_temperatures name p sr).
Proof.
  intros H1 H2 H3. unfold_blocks.
  repeat first [ apply preserves_gauge_set; congruence | preserve_step ].
Qed.

(** The two resets leave the gauges outside their list alone. *)
Lemma reset_disconnected_frame g :
  g ∈ [metrics.printer_online; metrics.wifi_signal; metrics.chamber_light;
       metrics.current_file; metrics.nozzle_info] →
  preserves g (reset_disconnected name sr).
Proof.
  intros Hg. unfold_blocks.
  repeat (apply elem_of_cons in Hg as [-> | Hg]; [preserve|]); by apply elem_of_nil in Hg.
Qed.

Lemma reset_silent_frame g :
  g ∈ [metrics.printer_online; metrics.wifi_signal; metrics.chamber_light;
       metrics.current_file; metrics.nozzle_info] →
  preserves g (reset_silent name sr).
Proof.
  intros Hg. unfold_blocks.
  repeat (apply elem_of_cons in Hg as [-> | Hg]; [preserve|]); by apply elem_of_nil in Hg.
Qed.

(** [data_received] at line 320. *)
Lemma read_temperatures_data bm :
  (read_temperatures name p sr bm).1 = Ok (temperature_published p sr).
Proof.
  unfold temperature_published, present. unfold_blocks.
  unfold mbind, M_bind, mret, M_ret, try_except, call, raise, gauge_set.
  destruct (get_nozzle_temperature p) as [|[?|]], (get_bed_temperature p) as [|[?|]],
    (get_chamber_temperature p) as [|[?|]],
    (sr metrics.nozzle_temp), (sr metrics.bed_temp), (sr metrics.chamber_temp);
    reflexivity.
Qed.

Lemma liveness_value bm :
  liveness name p sr bm =
    match mqtt_client_connected p with
    | Raises => None
    | Returns false => Some OFFLINE_DISCONNECTED
    | Returns true =>
        if temperature_published p sr then Some ONLINE else Some OFFLINE_SILENT
    end.
Proof.
  unfold liveness. destruct (mqtt_client_connected p) as [|[|]]; try done.
  pose proof (read_temperatures_data bm) as H.
  destruct (read_temperatures name p sr bm) as [[d|] bm']; simplify_eq/=.
  by destruct (temperature_published p sr).
Qed.

(** The cycle of a printer that is classified ONLINE. *)
Lemma update_printer_online bm :
  liveness name p sr bm = Some ONLINE →
  update_printer name p sr bm =
    (gauge_set sr metrics.printer_online [name] (num 1);;
     read_remaining_fields name p sr) (exec (read_temperatures name p sr) bm).
Proof.
  unfold liveness, update_printer, exec. intros H.
  destruct (mqtt_client_connected p) as [|[|]]; try done.
  unfold call, mbind, M_bind, mret, M_ret; simpl.
  destruct (read_temperatures name p sr bm) as [[[|]|] bm']; by simplify_eq/=.
Qed.

(** ... and of one whose link is up while no temperature arrived. *)
Lemma update_printer_silent bm :
  liveness name p sr bm = Some OFFLINE_SILENT →
  update_printer name p sr bm =
    (gauge_set sr metrics.printer_online [name] (num 0);;
     reset_silent name sr) (exec (read_temperatures name p sr) bm).
Proof.
  unfold liveness, update_printer, exec. intros H.
  destruct (mqtt_client_connected p) as [|[|]]; try done.
  pose proof (read_temperatures_data bm) as Hd.
  unfold call, mbind, M_bind, mret, M_ret; simpl.
  destruct (read_temperatures name p sr bm) as [[[|]|] bm']; by simplify_eq/=.
Qed.

Lemma update_printer_disconnected bm :
  mqtt_client_connected p = Returns false →
  update_printer name p sr bm =
    (gauge_set sr metrics.printer_online [name] (num 0);;
     reset_disconnected name sr) bm.
Proof. unfold update_printer. by intros ->. Qed.

(** The remaining fields, block after block. *)
Lemma exec_read_remaining_fields bm :
  exec (read_remaining_fields name p sr) bm =
    exec (read_nozzle_info name p sr)
      (exec (read_file_name name p sr)
        (exec (read_error_code name p sr)
          (exec (read_state name p sr)
            (exec (read_light_state name p sr)
              (exec (read_wifi_signal name p sr)
                (exec (read_print_speed name p sr)
                  (exec (read_total_layers name p sr)
                    (exec (read_current_layer name p sr)
                      (exec (read_remaining_time name p sr)
                        (exec (read_progress name p sr) bm)))))))))).
Proof.
  unfold read_remaining_fields, exec at 1.
  repeat (rewrite exec_seq; [| unfold_blocks; totality]). done.
Qed.

(** An ONLINE cycle: when the write of the online gauge raises, the
    cycle ends there. *)
Lemma exec_update_printer_online bm :
  liveness name p sr bm = Some ONLINE →
  exec (update_printer name p sr) bm =
    if sr metrics.printer_online then exec (read_temperatures name p sr) bm
    else
      exec (read_remaining_fields name p sr)
        (<[metrics.printer_online :=
             <[ [name] := num 1 ]>
               (exec (read_temperatures name p sr) bm !!! metrics.printer_online)]>
           (exec (read_temperatures name p sr) bm)).
Proof.
  intros Hl. unfold exec at 1. rewrite update_printer_online by done.
  destruct (sr metrics.printer_online) eqn:Ho.
  - unfold mbind, M_bind. by rewrite gauge_set_fails.
  - rewrite exec_seq by (intros bm'; rewrite gauge_set_ok by done; by eexists).
    unfold exec at 1. by rewrite gauge_set_ok.
Qed.

(** What the state block publishes. *)
Lemma exec_read_state coarse bm :
  get_state p = Returns (Some coarse) →
  sr metrics.printer_state = false →
  exec (read_state name p sr) bm !!! metrics.printer_state
  = <[ [name] := num (state_value coarse (granular p)) ]> (bm !!! metrics.printer_state).
Proof.
  intros Hst Hs. unfold exec, read_state, granular, gauge_set, try_except.
  rewrite Hst, Hs. simpl. unfold mbind, M_bind; simpl.
  destruct (gcode_state p) as [|g]; simpl; by rewrite lookup_total_insert_eq.
Qed.

Lemma read_state_absent_frame :
  get_state p = Raises ∨ get_state p = Returns None →
  preserves metrics.printer_state (read_state name p sr).
Proof. intros [H|H]; unfold read_state; rewrite H; preserve. Qed.

End blocks.

(** ** The keys of [state_mapping] *)

Lemma state_mapping_recognized s : is_Some (state_mapping !! s) ↔ recognized s.
Proof.
  unfold recognized, state_mapping.
  rewrite <- not_eq_None_Some, <- not_elem_of_list_to_map.
  split; [apply dec_stable | by intros ? ?].
Qed.

Lemma empty_not_recognized : ¬ recognized (PyStr.upper "").
Proof.
  unfold recognized. simpl. intros H.
  repeat (apply elem_of_cons in H as [H|H]; [done|]). by apply elem_of_nil in H.
Qed.

Lemma state_code_unrecognized s : ¬ recognized s → state_code s = 0.
Proof.
  intros H. unfold state_code.
  destruct (state_mapping !! s) eqn:E; [|done].
  destruct H. apply state_mapping_recognized. by eexists.
Qed.

Lemma reconciled_name_override coarse g :
  g ≠ "" → recognized (PyStr.upper g) →
  reconciled_name coarse (Some g) = PyStr.upper g.
Proof.
  intros Hg Hr. unfold reconciled_name, truthy. simpl.
  rewrite bool_decide_false by done. simpl.
  by rewrite bool_decide_true by (by apply state_mapping_recognized).
Qed.

Lemma reconciled_name_coarse coarse g :
  g = None ∨ (∃ s, g = Some s ∧ ¬ recognized (PyStr.upper s)) →
  reconciled_name coarse g = PyStr.upper coarse.
Proof.
  intros [-> | (s & -> & Hs)]; [done|]. unfold reconciled_name, truthy. simpl.
  destruct (negb _); [|done].
  by rewrite bool_decide_false by (by rewrite state_mapping_recognized).
Qed.

(** ** State reconciliation *)

Section state.

Variable name : string.
Variable p : Printer.
Variable sr : metrics.Metric → bool.
Variable bm : BambuMetrics.

(** The state gauge at the end of an ONLINE cycle that read a coarse
    state. *)
Lemma published_state coarse :
  liveness name p sr bm = Some ONLINE →
  sr metrics.printer_online = false →
  sr metrics.printer_state = false →
  get_state p = Returns (Some coarse) →
  shown metrics.printer_state name (exec (update_printer name p sr) bm)
  = Some (num (state_value coarse (granular p))).
Proof.
  intros Hl Ho Hs Hst. unfold shown.
  rewrite exec_update_printer_online, Ho, exec_read_remaining_fields by done.
  frame_out unfold_blocks.
  rewrite (exec_read_state _ _ _ coarse) by done. apply lookup_insert_eq.
Qed.

End state.

(** C1. State reconciliation. In every cycle that reads a coarse state
    (the printer is classified ONLINE and the sink takes the writes),
    the published state starts from the upper-cased coarse value; a
    granular gcode state that is present and whose upper-cased value is
    a recognized name overrides it; "RUNNING" has the code of
    "PRINTING"; a name that is not recognized gives 0. PRINTING with
    PAUSED gives 2, RUNNING alone gives 1, PRINTING with BOGUS gives 1
    and BOGUS alone gives 0. *)
Theorem state_reconciliation name p sr bm coarse :
  liveness name p sr bm = Some ONLINE →
  sr metrics.printer_online = false →
  sr metrics.printer_state = false →
  get_state p = Returns (Some coarse) →
  let published :=
    shown metrics.printer_state name (exec (update_printer name p sr) bm) in
  (∀ g, granular p = Some g → recognized (PyStr.upper g) →
     published = Some (num (state_code (PyStr.upper g))))
  ∧ (granular p = None ∨ (∃ g, granular p = Some g ∧ ¬ recognized (PyStr.upper g)) →
     published = Some (num (state_code (PyStr.upper coarse))))
  ∧ state_code "RUNNING" = state_code "PRINTING"
  ∧ (∀ s, ¬ recognized s → state_code s = 0)
  ∧ (coarse = "PRINTING" → granular p = Some "PAUSED" → published = Some (num 2))
  ∧ (coarse = "RUNNING" → granular p = None → published = Some (num 1))
  ∧ (coarse = "PRINTING" → granular p = Some "BOGUS" → published = Some (num 1))
  ∧ (coarse = "BOGUS" → granular p = None → published = Some (num 0)).
Proof.
  intros Hl Ho Hs Hst published.
  assert (Hp : published = Some (num (state_value coarse (granular p))))
    by (by apply published_state).
  rewrite Hp. unfold state_value. repeat split.
  - intros g -> Hr. rewrite reconciled_name_override; [done | | done].
    intros ->. by apply empty_not_recognized in Hr.
  - intros Hg. by rewrite reconciled_name_coarse.
  - apply state_code_unrecognized.
  - by intros -> ->.
  - by intros -> ->.
  - by intros -> ->.
  - by intros -> ->.
Qed.

Lemma state_reconciliation_witness :
  let p := Sample.reporting Sample.hot Sample.warm None
             (Some "PRINTING") (Some "PAUSED") None None None in
  liveness "p1" p Sample.sink_ok (connected_metrics "p1") = Some ONLINE
  ∧ shown metrics.printer_state "p1"
      (exec (update_printer "p1" p Sample.sink_ok) (connected_metrics "p1"))
    = Some (num 2).
Proof.
  intros p. split; [reflexivity|].
  refine (proj1 (proj2 (proj2 (proj2 (proj2
    (state_reconciliation "p1" p Sample.sink_ok (connected_metrics "p1") "PRINTING"
       _ _ _ _))))) _ _); reflexivity.
Defined.

(** C2, as the specification states it, fails: the name "FINISHED" of
    the specification's encoding is not a key of [state_mapping], so a
    printer that reports it is published as 0, not 3. *)
Lemma finished_is_published_as_0 :
  let p := Sample.reporting Sample.hot Sample.warm None
             (Some "finished") None None None None in
  ("FINISHED", 3) ∈ Spec.encoding
  ∧ PyStr.upper "finished" = "FINISHED"
  ∧ liveness "p1" p Sample.sink_ok (connected_metrics "p1") = Some ONLINE
  ∧ shown metrics.printer_state "p1"
      (exec (update_printer "p1" p Sample.sink_ok) (connected_metrics "p1"))
    = Some (num 0)
  ∧ num 0 ≠ num 3.
Proof.
  intros p. split; [|split; [|split; [|split]]].
  - unfold Spec.encoding. set_solver.
  - reflexivity.
  - reflexivity.
  - vm_compute. reflexivity.
  - discriminate.
Qed.

(** C2, amended. The published state follows the encoding IDLE=0,
    PRINTING=1, PAUSED=2, FINISH=3, FAILED=4 of the reconciled name
    (the upper-cased coarse value, or the granular one when it
    overrides): "FINISH" is published as 3, and "FINISHED", which is
    not a recognized name, as 0. *)
Theorem canonical_encoding name p sr bm coarse :
  liveness name p sr bm = Some ONLINE →
  sr metrics.printer_online = false →
  sr metrics.printer_state = false →
  get_state p = Returns (Some coarse) →
  let published :=
    shown metrics.printer_state name (exec (update_printer name p sr) bm) in
  (∀ n v,
     (n, v) ∈ [("IDLE", 0); ("PRINTING", 1); ("PAUSED", 2); ("FINISH", 3); ("FAILED", 4)] →
     reconciled_name coarse (granular p) = n → published = Some (num v))
  ∧ (reconciled_name coarse (granular p) = "FINISHED" → published = Some (num 0)).
Proof.
  intros Hl Ho Hs Hst published.
  assert (Hp : published = Some (num (state_value coarse (granular p))))
    by (by apply published_state).
  rewrite Hp. unfold state_value. split.
  - intros n v Hin ->.
    repeat (apply elem_of_cons in Hin as [[= -> ->] | Hin]; [done|]).
    by apply elem_of_nil in Hin.
  - by intros ->.
Qed.

Lemma canonical_encoding_witness :
  let p := Sample.reporting Sample.hot Sample.warm None
             (Some "Finish") None None None None in
  liveness "p1" p Sample.sink_ok (connected_metrics "p1") = Some ONLINE
  ∧ shown metrics.printer_state "p1"
      (exec (update_printer "p1" p Sample.sink_ok) (connected_metrics "p1"))
    = Some (num 3).
Proof.
  intros p. split; [reflexivity|].
  refine (proj1
    (canonical_encoding "p1" p Sample.sink_ok (connected_metrics "p1") "Finish" _ _ _ _)
    "FINISH" 3 _ _); try reflexivity.
  set_solver.
Defined.

(** C10. Coarse-state gate. In a cycle that reaches the state read (the
    printer is classified ONLINE), when the coarse state getter returns
    [None] or raises, the state gauge is left as it was, whatever the
    granular gcode state is. *)
Theorem coarse_state_gate name p sr bm :
  liveness name p sr bm = Some ONLINE →
  get_state p = Raises ∨ get_state p = Returns None →
  exec (update_printer name p sr) bm !!! metrics.printer_state
  = bm !!! metrics.printer_state.
Proof.
  intros Hl Hst. rewrite exec_update_printer_online by done.
  destruct (sr metrics.printer_online) eqn:Ho.
  - by rewrite read_temperatures_frame.
  - rewrite exec_read_remaining_fields.
    pose proof (read_state_absent_frame name p sr Hst) as Hframe.
    frame_out unfold_blocks. rewrite Hframe. frame_out unfold_blocks.
    rewrite lookup_total_insert_ne by done.
    by rewrite read_temperatures_frame.
Qed.

Lemma coarse_state_gate_witness :
  let p := Sample.reporting Sample.hot Sample.warm None
             None (Some "PAUSED") None None None in
  let bm := Sample.after_first_cycle in
  granular p = Some "PAUSED"
  ∧ exec (update_printer "p1" p Sample.sink_ok) bm !!! metrics.printer_state
    = bm !!! metrics.printer_state.
Proof.
  intros p bm. split; [reflexivity|].
  apply (coarse_state_gate "p1" p Sample.sink_ok bm); [reflexivity | by right].
Defined.

(** ** Unit conversions *)

Lemma lower_char_o c :
  bool_decide (PyStr.lower_char c = "o"%char)
  = bool_decide (c = "o"%char) || bool_decide (c = "O"%char).
Proof. by destruct c as [[] [] [] [] [] [] [] []]. Qed.

Lemma lower_char_n c :
  bool_decide (PyStr.lower_char c = "n"%char)
  = bool_decide (c = "n"%char) || bool_decide (c = "N"%char).
Proof. by destruct c as [[] [] [] [] [] [] [] []]. Qed.

(** [str(light_state).lower() == 'on'] holds for the four spellings of
    "on" and for nothing else. *)
Lemma lower_is_on l :
  bool_decide (PyStr.lower l = "on") = bool_decide (l ∈ ["on"; "On"; "oN"; "ON"]).
Proof.
  apply bool_decide_ext.
  destruct l as [|c1 [|c2 [|c3 l]]]; simpl.
  - split; [done|]. intros H.
    repeat (apply elem_of_cons in H as [H|H]; [by simplify_eq|]).
    by apply elem_of_nil in H.
  - split; [done|]. intros H.
    repeat (apply elem_of_cons in H as [H|H]; [by simplify_eq|]).
    by apply elem_of_nil in H.
  - pose proof (lower_char_o c1) as H1. pose proof (lower_char_n c2) as H2.
    split.
    + intros [= Ho Hn].
      rewrite bool_decide_eq_true_2 in H1 by done.
      rewrite bool_decide_eq_true_2 in H2 by done.
      symmetry in H1, H2.
      apply orb_prop in H1 as [H1|H1], H2 as [H2|H2];
        apply bool_decide_eq_true_1 in H1, H2; subst; repeat constructor.
    + intros H.
      repeat (apply elem_of_cons in H as [H|H]; [by simplify_eq|]).
      by apply elem_of_nil in H.
  - split; [done|]. intros H.
    repeat (apply elem_of_cons in H as [H|H]; [by simplify_eq|]).
    by apply elem_of_nil in H.
Qed.

Lemma light_value_on l :
  light_value l = if bool_decide (l ∈ ["on"; "On"; "oN"; "ON"]) then 1 else 0.
Proof. unfold light_value. by rewrite lower_is_on. Qed.

Section conversions.

Variable name : string.
Variable p : Printer.
Variable sr : metrics.Metric → bool.
Implicit Types (bm : BambuMetrics).

Lemma exec_read_remaining_time m bm :
  get_time p = Returns (Some m) →
  sr metrics.print_remaining_time = false →
  exec (read_remaining_time name p sr) bm !!! metrics.print_remaining_time
  = <[ [name] := Num (m * 60)%Q ]> (bm !!! metrics.print_remaining_time).
Proof.
  intros Hg Hs. unfold read_remaining_time. rewrite Hg. run. rewrite Hs. simpl.
  by rewrite lookup_total_insert_eq.
Qed.

Lemma exec_read_wifi_signal w v bm :
  wifi_signal p = Returns (Some w) →
  signal_strength w = Some v →
  sr metrics.wifi_signal = false →
  exec (read_wifi_signal name p sr) bm !!! metrics.wifi_signal
  = <[ [name] := v ]> (bm !!! metrics.wifi_signal).
Proof.
  intros Hg Hv Hs. unfold read_wifi_signal. rewrite Hg. run. rewrite Hv, Hs. simpl.
  by rewrite lookup_total_insert_eq.
Qed.

(** [float] raised: no value is written, but [labels] has created the
    sample at 0 if the gauge had none for the printer. *)
Lemma read_wifi_signal_unparsed w bm :
  wifi_signal p = Returns (Some w) →
  signal_strength w = None →
  sr metrics.wifi_signal = false →
  exec (read_wifi_signal name p sr) bm !!! metrics.wifi_signal
  = match (bm !!! metrics.wifi_signal) !! [name] with
    | Some _ => bm !!! metrics.wifi_signal
    | None => <[ [name] := num 0 ]> (bm !!! metrics.wifi_signal)
    end.
Proof.
  intros Hg Hv Hs. unfold read_wifi_signal. rewrite Hg. run. rewrite Hv, Hs. simpl.
  destruct ((bm !!! metrics.wifi_signal) !! [name]); simpl; [done|].
  by rewrite lookup_total_insert_eq.
Qed.

Lemma exec_read_light_state l bm :
  get_light_state p = Returns (Some l) →
  sr metrics.chamber_light = false →
  exec (read_light_state name p sr) bm !!! metrics.chamber_light
  = <[ [name] := num (light_value l) ]> (bm !!! metrics.chamber_light).
Proof.
  intros Hg Hs. unfold read_light_state. rewrite Hg. run. rewrite Hs. simpl.
  by rewrite lookup_total_insert_eq.
Qed.

(** An ONLINE cycle whose online write is taken ends without raising. *)
Lemma update_printer_online_returns bm :
  liveness name p sr bm = Some ONLINE →
  sr metrics.printer_online = false →
  (update_printer name p sr bm).1 = Ok ().
Proof.
  intros Hl Ho. rewrite update_printer_online by done.
  rewrite exec_seq by (intros bm'; rewrite gauge_set_ok by done; by eexists).
  destruct (total_read_remaining_fields name p sr
              (exec (gauge_set sr metrics.printer_online [name] (num 1))
                 (exec (read_temperatures name p sr) bm))) as [[] H].
  done.
Qed.

End conversions.

(** The conversions of lines 350-401, in every cycle that reads the
    fields (the printer is classified ONLINE): a remaining time of [m]
    minutes is published as [m * 60]; a signal strength that parses is
    published as the number read, "-63dBm" as -63; one that does not
    parse, such as "N/A", publishes no value and the cycle ends without
    raising, the gauge showing its last sample or, if it had none, the
    0 that [labels] created; a light state is published as 1 when it is
    "on" in any letter case and as 0 otherwise. *)
Lemma unit_conversions (name : string) (p : Printer) (sr : metrics.Metric → bool)
    (bm : BambuMetrics) :
  liveness name p sr bm = Some ONLINE →
  sr metrics.printer_online = false →
  let bm' := exec (update_printer name p sr) bm in
  (∀ m, get_time p = Returns (Some m) →
     sr metrics.print_remaining_time = false →
     shown metrics.print_remaining_time name bm' = Some (Num (m * 60)%Q))
  ∧ (∀ w v, wifi_signal p = Returns (Some w) →
     signal_strength w = Some v →
     sr metrics.wifi_signal = false →
     shown metrics.wifi_signal name bm' = Some v)
  ∧ signal_strength "-63dBm" = Some (Num (-63 # 1)%Q)
  ∧ (∀ w, wifi_signal p = Returns (Some w) →
     signal_strength w = None →
     sr metrics.wifi_signal = false →
     shown metrics.wifi_signal name bm'
     = Some (default (num 0) (shown metrics.wifi_signal name bm))
     ∧ (update_printer name p sr bm).1 = Ok ())
  ∧ signal_strength "N/A" = None
  ∧ (∀ l, get_light_state p = Returns (Some l) →
     sr metrics.chamber_light = false →
     shown metrics.chamber_light name bm'
     = Some (num (if bool_decide (l ∈ ["on"; "On"; "oN"; "ON"]) then 1 else 0))).
Proof.
  intros Hl Ho bm'. subst bm'. unfold shown.
  rewrite exec_update_printer_online, Ho, exec_read_remaining_fields by done.
  split; [|split; [|split; [done|split; [|split; [done|]]]]].
  - intros m Hg Hs. frame_out unfold_blocks.
    rewrite (exec_read_remaining_time _ _ _ m) by done. apply lookup_insert_eq.
  - intros w v Hg Hv Hs. frame_out unfold_blocks.
    rewrite (exec_read_wifi_signal _ _ _ w v) by done.
    apply lookup_insert_eq.
  - intros w Hg Hv Hs. split; [|by apply update_printer_online_returns].
    frame_out unfold_blocks.
    rewrite (read_wifi_signal_unparsed name p sr w) by done.
    frame_out unfold_blocks.
    rewrite !lookup_total_insert_ne by done.
    rewrite !read_temperatures_frame by done.
    destruct ((bm !!! metrics.wifi_signal) !! [name]) as [v|] eqn:E; simpl.
    + done.
    + apply lookup_insert_eq.
  - intros l Hg Hs. frame_out unfold_blocks.
    rewrite (exec_read_light_state _ _ _ l) by done.
    rewrite lookup_insert_eq. by rewrite light_value_on.
Qed.

(** C8, the code at a failing input. The printer is connected and
    reports its temperatures; the signal gauge has never been written
    and [wifi_signal()] returns "N/A". The cycle ends without raising,
    but the field is not left absent: the gauge now shows a signal
    strength of 0, the sample that [labels] created before [float]
    raised. *)
Theorem unparsed_signal_leaves_zero_sample :
  let p := Sample.reporting Sample.hot Sample.warm None None None (Some "N/A") None None in
  let bm := connected_metrics "p1" in
  let bm' := exec (update_printer "p1" p Sample.sink_ok) bm in
  signal_strength "N/A" = None
  ∧ liveness "p1" p Sample.sink_ok bm = Some ONLINE
  ∧ (update_printer "p1" p Sample.sink_ok bm).1 = Ok ()
  ∧ shown metrics.wifi_signal "p1" bm = None
  ∧ shown metrics.wifi_signal "p1" bm' = Some (num 0).
Proof. intros p bm bm'. repeat split; vm_compute; reflexivity. Qed.

(** ** Liveness *)

Section liveness.

Variable name : string.
Variable p : Printer.
Variable sr : metrics.Metric → bool.
Implicit Types (bm : BambuMetrics).

(** With a sink that takes the temperature writes, [data_received] says
    whether a temperature getter returned a value. *)
Lemma temperature_published_returned :
  sr metrics.nozzle_temp = false →
  sr metrics.bed_temp = false →
  sr metrics.chamber_temp = false →
  temperature_published p sr = temperature_returned_data p.
Proof.
  intros H1 H2 H3. unfold temperature_published, temperature_returned_data.
  rewrite H1, H2, H3. simpl. by rewrite !andb_true_r.
Qed.

(** The online gauge at the end of the three branches. *)
Lemma online_gauge_disconnected bm :
  mqtt_client_connected p = Returns false →
  sr metrics.printer_online = false →
  shown metrics.printer_online name (exec (update_printer name p sr) bm) = Some (num 0).
Proof.
  intros Hc Ho. unfold shown, exec at 1. rewrite update_printer_disconnected by done.
  rewrite exec_seq by (intros bm'; rewrite gauge_set_ok by done; by eexists).
  fold (exec (reset_disconnected name sr)
          (exec (gauge_set sr metrics.printer_online [name] (num 0)) bm)).
  rewrite reset_disconnected_frame by repeat constructor.
  unfold exec. rewrite gauge_set_ok by done. simpl.
  rewrite lookup_total_insert_eq. apply lookup_insert_eq.
Qed.

Lemma online_gauge_silent bm :
  liveness name p sr bm = Some OFFLINE_SILENT →
  sr metrics.printer_online = false →
  shown metrics.printer_online name (exec (update_printer name p sr) bm) = Some (num 0).
Proof.
  intros Hl Ho. unfold shown, exec at 1. rewrite update_printer_silent by done.
  rewrite exec_seq by (intros bm'; rewrite gauge_set_ok by done; by eexists).
  fold (exec (reset_silent name sr)
          (exec (gauge_set sr metrics.printer_online [name] (num 0))
             (exec (read_temperatures name p sr) bm))).
  rewrite reset_silent_frame by repeat constructor.
  unfold exec at 1. rewrite gauge_set_ok by done. simpl.
  rewrite lookup_total_insert_eq. apply lookup_insert_eq.
Qed.

Lemma online_gauge_online bm :
  liveness name p sr bm = Some ONLINE →
  sr metrics.printer_online = false →
  shown metrics.printer_online name (exec (update_printer name p sr) bm) = Some (num 1).
Proof.
  intros Hl Ho. unfold shown.
  rewrite exec_update_printer_online, Ho, exec_read_remaining_fields by done.
  frame_out unfold_blocks.
  rewrite lookup_total_insert_eq. apply lookup_insert_eq.
Qed.

End liveness.

(** C3, as the specification states it, fails: a connected printer whose
    temperature getters return nothing is classified offline although
    progress, state and file name are reported. *)
Lemma progress_alone_is_not_data :
  let p := Sample.no_temperature (Returns None) in
  present (get_percentage p) = true
  ∧ Spec.liveness p = Some ONLINE
  ∧ liveness "p1" p Sample.sink_ok (connected_metrics "p1") = Some OFFLINE_SILENT
  ∧ shown metrics.printer_online "p1"
      (exec (update_printer "p1" p Sample.sink_ok) (connected_metrics "p1"))
    = Some (num 0)
  ∧ num 0 ≠ num (Spec.online_value ONLINE).
Proof.
  intros p. split; [|split; [|split; [|split]]]; try reflexivity.
  discriminate.
Qed.

(** C3, amended. First match wins: a transport that is not connected
    gives OFFLINE_DISCONNECTED and an online gauge of 0; a connected
    transport with none of the three temperature getters (nozzle, bed,
    chamber) returning a value gives OFFLINE_SILENT and 0; otherwise the
    printer is ONLINE and the gauge is 1. The other fields are read
    after the classification and take no part in it. *)
Theorem liveness_classification name p sr bm connected :
  mqtt_client_connected p = Returns connected →
  sr metrics.printer_online = false →
  sr metrics.nozzle_temp = false →
  sr metrics.bed_temp = false →
  sr metrics.chamber_temp = false →
  let l :=
    if negb connected then OFFLINE_DISCONNECTED
    else if temperature_returned_data p then ONLINE
    else OFFLINE_SILENT in
  liveness name p sr bm = Some l
  ∧ shown metrics.printer_online name (exec (update_printer name p sr) bm)
    = Some (num (Spec.online_value l)).
Proof.
  intros Hc Ho H1 H2 H3 l.
  assert (Hl : liveness name p sr bm = Some l).
  { rewrite liveness_value, Hc, temperature_published_returned by done.
    subst l. destruct connected; [|done]. simpl.
    by destruct (temperature_returned_data p). }
  split; [done|]. subst l.
  destruct connected; simpl in *.
  - destruct (temperature_returned_data p); simpl.
    + by apply online_gauge_online.
    + by apply online_gauge_silent.
  - by apply online_gauge_disconnected.
Qed.

Lemma liveness_classification_witness :
  let p := Sample.printing None in
  liveness "p1" p Sample.sink_ok (connected_metrics "p1") = Some ONLINE
  ∧ shown metrics.printer_online "p1"
      (exec (update_printer "p1" p Sample.sink_ok) (connected_metrics "p1"))
    = Some (num 1).
Proof.
  intros p.
  exact (liveness_classification "p1" p Sample.sink_ok (connected_metrics "p1") true
           eq_refl eq_refl eq_refl eq_refl eq_refl).
Defined.

(** ** Per-field fault isolation *)

(** Statements that agree on every state can replace one another. *)
Lemma bind_ext {A B} (c c' : M A) (k k' : A → M B) :
  (∀ bm, c bm = c' bm) → (∀ a bm, k a bm = k' a bm) →
  ∀ bm, (c ≫= k) bm = (c' ≫= k') bm.
Proof.
  intros Hc Hk bm. unfold mbind, M_bind. rewrite Hc.
  by destruct (c' bm) as [[a|] bm'].
Qed.

(** Shows that a block treats a read that raises as one that returns
    [None]. *)
Ltac failure_block getter :=
  intros ?; destruct getter as [|[?|]] eqn:?; run; reflexivity.

Section isolation.

Variable name : string.
Variable p : Printer.
Variable sr : metrics.Metric → bool.
Implicit Types (bm : BambuMetrics).

Let q := Spec.absent_on_failure p.

Lemma read_nozzle_temp_failure bm :
  read_nozzle_temp name q sr bm = read_nozzle_temp name p sr bm.
Proof. revert bm. unfold read_nozzle_temp. simpl. failure_block (get_nozzle_temperature p). Qed.

Lemma read_bed_temp_failure bm :
  read_bed_temp name q sr bm = read_bed_temp name p sr bm.
Proof. revert bm. unfold read_bed_temp. simpl. failure_block (get_bed_temperature p). Qed.

Lemma read_chamber_temp_failure bm :
  read_chamber_temp name q sr bm = read_chamber_temp name p sr bm.
Proof. revert bm. unfold read_chamber_temp. simpl. failure_block (get_chamber_temperature p). Qed.

Lemma read_progress_failure bm :
  read_progress name q sr bm = read_progress name p sr bm.
Proof. revert bm. unfold read_progress. simpl. failure_block (get_percentage p). Qed.

Lemma read_remaining_time_failure bm :
  read_remaining_time name q sr bm = read_remaining_time name p sr bm.
Proof. revert bm. unfold read_remaining_time. simpl. failure_block (get_time p). Qed.

Lemma read_current_layer_failure bm :
  read_current_layer name q sr bm = read_current_layer name p sr bm.
Proof. revert bm. unfold read_current_layer. simpl. failure_block (current_layer_num p). Qed.

Lemma read_total_layers_failure bm :
  read_total_layers name q sr bm = read_total_layers name p sr bm.
Proof. revert bm. unfold read_total_layers. simpl. failure_block (total_layer_num p). Qed.

Lemma read_print_speed_failure bm :
  read_print_speed name q sr bm = read_print_speed name p sr bm.
Proof. revert bm. unfold read_print_speed. simpl. failure_block (get_print_speed p). Qed.

Lemma read_wifi_signal_failure bm :
  read_wifi_signal name q sr bm = read_wifi_signal name p sr bm.
Proof. revert bm. unfold read_wifi_signal. simpl. failure_block (wifi_signal p). Qed.

Lemma read_light_state_failure bm :
  read_light_state name q sr bm = read_light_state name p sr bm.
Proof. revert bm. unfold read_light_state. simpl. failure_block (get_light_state p). Qed.

Lemma read_state_failure bm :
  read_state name q sr bm = read_state name p sr bm.
Proof.
  unfold read_state. simpl.
  destruct (get_state p) as [|[?|]], (gcode_state p) as [|[?|]]; run; reflexivity.
Qed.

Lemma read_error_code_failure bm :
  read_error_code name q sr bm = read_error_code name p sr bm.
Proof. revert bm. unfold read_error_code. simpl. failure_block (print_error_code p). Qed.

Lemma read_file_name_failure bm :
  read_file_name name q sr bm = read_file_name name p sr bm.
Proof. revert bm. unfold read_file_name. simpl. failure_block (get_file_name p). Qed.

Lemma read_nozzle_info_failure bm :
  read_nozzle_info name q sr bm = read_nozzle_info name p sr bm.
Proof.
  unfold read_nozzle_info. simpl.
  destruct (nozzle_type p) as [|[?|]], (nozzle_diameter p) as [|[?|]]; run; reflexivity.
Qed.

Lemma read_temperatures_failure bm :
  read_temperatures name q sr bm = read_temperatures name p sr bm.
Proof.
  revert bm. unfold read_temperatures.
  apply bind_ext; [apply read_nozzle_temp_failure | intros d1].
  apply bind_ext; [apply read_bed_temp_failure | intros d2].
  apply bind_ext; [apply read_chamber_temp_failure | done].
Qed.

Lemma read_remaining_fields_failure bm :
  read_remaining_fields name q sr bm = read_remaining_fields name p sr bm.
Proof.
  revert bm. unfold read_remaining_fields.
  apply bind_ext; [apply read_progress_failure | intros _].
  apply bind_ext; [apply read_remaining_time_failure | intros _].
  apply bind_ext; [apply read_current_layer_failure | intros _].
  apply bind_ext; [apply read_total_layers_failure | intros _].
  apply bind_ext; [apply read_print_speed_failure | intros _].
  apply bind_ext; [apply read_wifi_signal_failure | intros _].
  apply bind_ext; [apply read_light_state_failure | intros _].
  apply bind_ext; [apply read_state_failure | intros _].
  apply bind_ext; [apply read_error_code_failure | intros _].
  apply bind_ext; [apply read_file_name_failure | intros _].
  apply read_nozzle_info_failure.
Qed.

(** A read that raises has the effect of a read that returns [None],
    on the whole cycle and for every field. *)
Lemma failure_is_absence bm :
  update_printer name q sr bm = update_printer name p sr bm.
Proof.
  revert bm. unfold update_printer. simpl.
  apply bind_ext; [done | intros connected].
  destruct (negb connected); [done|].
  apply bind_ext; [apply read_temperatures_failure | intros data_received].
  destruct data_received; [|done].
  apply bind_ext; [done | intros _]. apply read_remaining_fields_failure.
Qed.

(** A temperature read that raises leaves its gauge alone. *)
Lemma read_nozzle_temp_raises_frame :
  get_nozzle_temperature p = Raises →
  preserves metrics.nozzle_temp (read_temperatures name p sr).
Proof.
  intros H. unfold read_temperatures, read_nozzle_temp, read_bed_temp, read_chamber_temp.
  rewrite H. preserve.
Qed.

End isolation.

(** C7, as the specification states it, fails: the nozzle temperature
    read raises while progress, state and file name still report data,
    yet the printer is classified offline and the full reset runs, so
    the nozzle gauge does not keep its last value. *)
Lemma one_failure_can_reset :
  let p := Sample.no_temperature Raises in
  let bm := Sample.after_first_cycle in
  let bm' := exec (update_printer "p1" p Sample.sink_ok) bm in
  get_nozzle_temperature p = Raises
  ∧ present (get_percentage p) = true
  ∧ present (get_state p) = true
  ∧ present (get_file_name p) = true
  ∧ shown metrics.nozzle_temp "p1" bm = Some (Num (421 # 2)%Q)
  ∧ shown metrics.printer_online "p1" bm' = Some (num 0)
  ∧ shown metrics.nozzle_temp "p1" bm' = Some (num 0)
  ∧ shown metrics.print_progress "p1" bm' = Some (num 0).
Proof. intros p bm bm'. repeat split; vm_compute; reflexivity. Qed.

(** ** The offline reset *)

Section reset.

Variable name : string.
Variable sr : metrics.Metric → bool.
Implicit Types (bm : BambuMetrics) (g : metrics.Metric).

(** The two resets are the same statement. *)
Lemma reset_silent_disconnected bm :
  reset_silent name sr bm = reset_disconnected name sr bm.
Proof. reflexivity. Qed.

(** With a sink that takes the writes, the reset leaves its twelve
    gauges at 0. *)
Lemma reset_disconnected_zero g bm :
  (∀ g', sr g' = false) →
  g ∈ [metrics.nozzle_temp; metrics.nozzle_target_temp; metrics.bed_temp;
       metrics.bed_target_temp; metrics.chamber_temp; metrics.print_progress;
       metrics.print_remaining_time; metrics.current_layer; metrics.total_layers;
       metrics.print_speed; metrics.error_code; metrics.printer_state] →
  (reset_disconnected name sr bm).1 = Ok ()
  ∧ shown g name (exec (reset_disconnected name sr) bm) = Some (num 0).
Proof.
  intros Hs Hg. split.
  - assert (Ht : total (reset_disconnected name sr)).
    { unfold reset_disconnected.
      repeat first [ apply total_gauge_set, Hs | apply total_bind; [| intros ?] ]. }
    by destruct (Ht bm) as [[] ?].
  - unfold shown, reset_disconnected.
    rewrite !exec_then by apply total_gauge_set, Hs.
    repeat (apply elem_of_cons in Hg as [-> | Hg];
            [frame_out idtac; rewrite exec_gauge_set by apply Hs;
             apply lookup_insert_eq|]).
    by apply elem_of_nil in Hg.
Qed.

End reset.

Section offline.

Variable name : string.
Variable p : Printer.
Variable sr : metrics.Metric → bool.
Implicit Types (bm : BambuMetrics) (g : metrics.Metric).

(** A cycle that does not classify the printer ONLINE leaves the signal,
    light and dynamic-label gauges as they were. *)
Lemma update_printer_offline_frame g bm :
  g ∈ [metrics.wifi_signal; metrics.chamber_light; metrics.current_file;
       metrics.nozzle_info] →
  liveness name p sr bm ≠ Some ONLINE →
  exec (update_printer name p sr) bm !!! g = bm !!! g.
Proof.
  intros Hg Hl.
  assert (Hr : g ∈ [metrics.printer_online; metrics.wifi_signal; metrics.chamber_light;
                    metrics.current_file; metrics.nozzle_info])
    by (by apply list_elem_of_further).
  assert (Hne : g ≠ metrics.printer_online ∧ g ≠ metrics.nozzle_temp
                ∧ g ≠ metrics.bed_temp ∧ g ≠ metrics.chamber_temp).
  { repeat (apply elem_of_cons in Hg as [-> | Hg]; [done|]). by apply elem_of_nil in Hg. }
  destruct Hne as (Ho & H1 & H2 & H3).
  destruct (liveness name p sr bm) as [[]|] eqn:E; [done | | |].
  - unfold exec at 1. rewrite update_printer_silent by done.
    change (exec (gauge_set sr metrics.printer_online [name] (num 0);;
                  reset_silent name sr)
              (exec (read_temperatures name p sr) bm) !!! g = bm !!! g).
    rewrite (preserves_bind g); [by apply read_temperatures_frame | |].
    + by apply preserves_gauge_set.
    + intros _. by apply reset_silent_frame.
  - unfold liveness in E. destruct (mqtt_client_connected p) as [|[|]] eqn:Hc; try done.
    { by destruct (read_temperatures name p sr bm) as [[[|]|] ?]. }
    unfold exec at 1. rewrite update_printer_disconnected by done.
    change (exec (gauge_set sr metrics.printer_online [name] (num 0);;
                  reset_disconnected name sr) bm !!! g = bm !!! g).
    rewrite (preserves_bind g); [done | |].
    + by apply preserves_gauge_set.
    + intros _. by apply reset_disconnected_frame.
  - unfold liveness in E. destruct (mqtt_client_connected p) as [|[|]] eqn:Hc; try done.
    { unfold exec, update_printer. by rewrite Hc. }
    by destruct (read_temperatures name p sr bm) as [[[|]|] ?].
Qed.

End offline.

(** C4, the code at a failing input. After a cycle that published a
    signal strength of -63 and a light state of 1, a cycle with the
    transport down, and likewise one with the link up and no
    temperature, resets the temperatures and the online gauge but leaves
    the signal and light gauges at their last values. *)
Theorem offline_reset_keeps_signal_and_light :
  let bm := Sample.after_first_cycle in
  let down := exec (update_printer "p1" Sample.unplugged Sample.sink_ok) bm in
  let silent :=
    exec (update_printer "p1" (Sample.no_temperature (Returns None)) Sample.sink_ok) bm in
  metrics.wifi_signal ∈ Spec.telemetry_gauges
  ∧ metrics.chamber_light ∈ Spec.telemetry_gauges
  ∧ liveness "p1" Sample.unplugged Sample.sink_ok bm = Some OFFLINE_DISCONNECTED
  ∧ liveness "p1" (Sample.no_temperature (Returns None)) Sample.sink_ok bm
    = Some OFFLINE_SILENT
  ∧ shown metrics.printer_online "p1" down = Some (num 0)
  ∧ shown metrics.nozzle_temp "p1" down = Some (num 0)
  ∧ shown metrics.wifi_signal "p1" down = Some (Num (-63 # 1)%Q)
  ∧ shown metrics.chamber_light "p1" down = Some (num 1)
  ∧ silent = down.
Proof.
  intros bm down silent.
  split; [unfold Spec.telemetry_gauges; repeat constructor|].
  split; [unfold Spec.telemetry_gauges; repeat constructor|].
  repeat split; vm_compute; reflexivity.
Qed.

(** ** Dynamic-label gauges *)

Lemma lookup_Some_nonempty (g : Gauge) l v : g !! l = Some v → g ≠ ∅.
Proof. intros H ->. by rewrite lookup_empty in H. Qed.

Lemma single_active_empty : Spec.single_active ∅.
Proof. intros l1 l2 v1 v2 H. by rewrite lookup_empty in H. Qed.

Lemma single_active_singleton l : Spec.single_active {[ l := num 1 ]}.
Proof.
  intros l1 l2 v1 v2 [<- <-]%lookup_singleton_Some [<- _]%lookup_singleton_Some.
  done.
Qed.

Section dynamic.

Variable name : string.
Variable p : Printer.
Variable sr : metrics.Metric → bool.
Implicit Types (bm : BambuMetrics) (g : metrics.Metric).

(** A present file name replaces whatever the gauge held. *)
Lemma exec_read_file_name f bm :
  get_file_name p = Returns (Some f) →
  f ≠ "" →
  sr metrics.current_file = false →
  exec (read_file_name name p sr) bm !!! metrics.current_file
  = {[ [name; f] := num 1 ]}.
Proof.
  intros Hg Hf Hs. unfold read_file_name. rewrite Hg. run.
  rewrite bool_decide_false by done. simpl. rewrite Hs. simpl.
  by rewrite lookup_total_insert_eq, lookup_total_insert_eq, insert_empty.
Qed.

Lemma exec_read_nozzle_info t d bm :
  nozzle_type p = Returns (Some t) →
  nozzle_diameter p = Returns (Some d) →
  sr metrics.nozzle_info = false →
  exec (read_nozzle_info name p sr) bm !!! metrics.nozzle_info
  = {[ [name; t; d] := num 1 ]}.
Proof.
  intros Ht Hd Hs. unfold read_nozzle_info. rewrite Ht, Hd. run. rewrite Hs. simpl.
  by rewrite lookup_total_insert_eq, lookup_total_insert_eq, insert_empty.
Qed.

(** An absent value: the block writes nothing and clears nothing. *)
Lemma read_file_name_absent_frame :
  Spec.dynamic_value_absent p metrics.current_file →
  preserves metrics.current_file (read_file_name name p sr).
Proof.
  unfold Spec.dynamic_value_absent, read_file_name. intros H bm.
  destruct (get_file_name p) as [|f]; run; [done|]. by rewrite H.
Qed.

Lemma read_nozzle_info_absent_frame :
  Spec.dynamic_value_absent p metrics.nozzle_info →
  preserves metrics.nozzle_info (read_nozzle_info name p sr).
Proof.
  unfold Spec.dynamic_value_absent, read_nozzle_info. intros H bm.
  destruct (nozzle_type p) as [|[t|]], (nozzle_diameter p) as [|[d|]]; by run.
Qed.

(** What the two blocks can leave in their gauge: what was there,
    nothing (the write after the clear raised), or one combination
    that reads 1. *)
Lemma read_file_name_cases bm :
  let g' := exec (read_file_name name p sr) bm !!! metrics.current_file in
  g' = bm !!! metrics.current_file ∨ g' = ∅ ∨ ∃ l, g' = {[ l := num 1 ]}.
Proof.
  unfold read_file_name.
  destruct (get_file_name p) as [|f]; run; [by left|].
  destruct (truthy f); simpl; [|by left].
  destruct (sr metrics.current_file); simpl.
  - right; left. by rewrite lookup_total_insert_eq.
  - right; right. eexists.
    by rewrite lookup_total_insert_eq, lookup_total_insert_eq, insert_empty.
Qed.

Lemma read_nozzle_info_cases bm :
  let g' := exec (read_nozzle_info name p sr) bm !!! metrics.nozzle_info in
  g' = bm !!! metrics.nozzle_info ∨ g' = ∅ ∨ ∃ l, g' = {[ l := num 1 ]}.
Proof.
  unfold read_nozzle_info.
  destruct (nozzle_type p) as [|[t|]], (nozzle_diameter p) as [|[d|]]; run;
    try (by left).
  destruct (sr metrics.nozzle_info); simpl.
  - right; left. by rewrite lookup_total_insert_eq.
  - right; right. eexists.
    by rewrite lookup_total_insert_eq, lookup_total_insert_eq, insert_empty.
Qed.

(** The gauges before the blocks of an ONLINE cycle run. *)
Lemma online_prefix_frame g (online : Gauge) bm :
  g ≠ metrics.printer_online → g ≠ metrics.nozzle_temp →
  g ≠ metrics.bed_temp → g ≠ metrics.chamber_temp →
  <[metrics.printer_online := online]> (exec (read_temperatures name p sr) bm) !!! g
  = bm !!! g.
Proof.
  intros Ho H1 H2 H3. rewrite lookup_total_insert_ne by done.
  by apply read_temperatures_frame.
Qed.

(** The same three outcomes for a whole cycle. *)
Lemma update_printer_file_cases bm :
  let g' := exec (update_printer name p sr) bm !!! metrics.current_file in
  g' = bm !!! metrics.current_file ∨ g' = ∅ ∨ ∃ l, g' = {[ l := num 1 ]}.
Proof.
  intros g'. subst g'.
  destruct (decide (liveness name p sr bm = Some ONLINE)) as [Hl|Hl];
    [|left; apply update_printer_offline_frame; [repeat constructor | done]].
  rewrite exec_update_printer_online by done.
  destruct (sr metrics.printer_online); [left; by apply read_temperatures_frame|].
  rewrite exec_read_remaining_fields. frame_out unfold_blocks.
  match goal with
  | |- context [exec (read_file_name name p sr) ?X] =>
      destruct (read_file_name_cases X) as [H | [H | H]]
  end; [left | by right; left | by right; right].
  rewrite H. frame_out unfold_blocks. by apply online_prefix_frame.
Qed.

Lemma update_printer_nozzle_cases bm :
  let g' := exec (update_printer name p sr) bm !!! metrics.nozzle_info in
  g' = bm !!! metrics.nozzle_info ∨ g' = ∅ ∨ ∃ l, g' = {[ l := num 1 ]}.
Proof.
  intros g'. subst g'.
  destruct (decide (liveness name p sr bm = Some ONLINE)) as [Hl|Hl];
    [|left; apply update_printer_offline_frame; [repeat constructor | done]].
  rewrite exec_update_printer_online by done.
  destruct (sr metrics.printer_online); [left; by apply read_temperatures_frame|].
  rewrite exec_read_remaining_fields.
  match goal with
  | |- context [exec (read_nozzle_info name p sr) ?X] =>
      destruct (read_nozzle_info_cases X) as [H | [H | H]]
  end; [left | by right; left | by right; right].
  rewrite H. frame_out unfold_blocks. by apply online_prefix_frame.
Qed.

(** The file gauge at the end of an ONLINE cycle that read a file name. *)
Lemma published_file f bm :
  liveness name p sr bm = Some ONLINE →
  sr metrics.printer_online = false →
  sr metrics.current_file = false →
  get_file_name p = Returns (Some f) →
  f ≠ "" →
  exec (update_printer name p sr) bm !!! metrics.current_file
  = {[ [name; f] := num 1 ]}.
Proof.
  intros Hl Ho Hs Hg Hf.
  rewrite exec_update_printer_online, Ho, exec_read_remaining_fields by done.
  frame_out unfold_blocks. by apply exec_read_file_name.
Qed.

Lemma published_nozzle t d bm :
  liveness name p sr bm = Some ONLINE →
  sr metrics.printer_online = false →
  sr metrics.nozzle_info = false →
  nozzle_type p = Returns (Some t) →
  nozzle_diameter p = Returns (Some d) →
  exec (update_printer name p sr) bm !!! metrics.nozzle_info
  = {[ [name; t; d] := num 1 ]}.
Proof.
  intros Hl Ho Hs Ht Hd.
  rewrite exec_update_printer_online, Ho, exec_read_remaining_fields by done.
  by apply exec_read_nozzle_info.
Qed.

(** A cycle in which the value is absent leaves the gauge as it was,
    whatever the liveness. *)
Lemma update_printer_absent_frame g bm :
  Spec.dynamic_value_absent p g →
  exec (update_printer name p sr) bm !!! g = bm !!! g.
Proof.
  intros Ha.
  assert (Hg : g = metrics.current_file ∨ g = metrics.nozzle_info)
    by (destruct g; try done; auto).
  destruct (decide (liveness name p sr bm = Some ONLINE)) as [Hl|Hl];
    [| apply update_printer_offline_frame;
       [destruct Hg as [-> | ->]; repeat constructor | done]].
  rewrite exec_update_printer_online by done.
  destruct (sr metrics.printer_online);
    [destruct Hg as [-> | ->]; by apply read_temperatures_frame|].
  rewrite exec_read_remaining_fields.
  destruct Hg as [-> | ->].
  - pose proof (read_file_name_absent_frame Ha) as Hframe.
    frame_out unfold_blocks. rewrite Hframe. frame_out unfold_blocks.
    by apply online_prefix_frame.
  - pose proof (read_nozzle_info_absent_frame Ha) as Hframe.
    rewrite Hframe. frame_out unfold_blocks. by apply online_prefix_frame.
Qed.

End dynamic.

Lemma single_active_cases (old new : Gauge) :
  Spec.single_active old →
  new = old ∨ new = ∅ ∨ (∃ l, new = {[ l := num 1 ]}) →
  Spec.single_active new.
Proof.
  intros Hold [-> | [-> | [l ->]]];
    [done | apply single_active_empty | apply single_active_singleton].
Qed.

(** One cycle keeps both dynamic-label gauges single-active. *)
Lemma update_printer_single_active (name : string) (p : Printer)
    (sr : metrics.Metric → bool) (bm : BambuMetrics) :
  Spec.single_active (bm !!! metrics.current_file) →
  Spec.single_active (bm !!! metrics.nozzle_info) →
  Spec.single_active (exec (update_printer name p sr) bm !!! metrics.current_file)
  ∧ Spec.single_active (exec (update_printer name p sr) bm !!! metrics.nozzle_info).
Proof.
  intros Hf Hn. split.
  - eapply single_active_cases; [exact Hf | apply update_printer_file_cases].
  - eapply single_active_cases; [exact Hn | apply update_printer_nozzle_cases].
Qed.

(** ... and so does any number of cycles. *)
Lemma after_cycles_single_active (name : string) (cycles : list Device)
    (bm : BambuMetrics) :
  Spec.single_active (bm !!! metrics.current_file) →
  Spec.single_active (bm !!! metrics.nozzle_info) →
  Spec.single_active (after_cycles name cycles bm !!! metrics.current_file)
  ∧ Spec.single_active (after_cycles name cycles bm !!! metrics.nozzle_info).
Proof.
  revert bm. induction cycles as [|d cycles IH]; intros bm Hf Hn; [done|].
  simpl. destruct (update_printer_single_active name (dev_printer d) (dev_sink_raises d) bm)
    as [Hf' Hn']; [done..|].
  by apply IH.
Qed.

(** C5, as the specification states it, fails: the update of a cycle
    without file name does not remove the combination published before,
    whereas step (a) of the protocol removes it. *)
Lemma absent_value_clears_nothing :
  let p := Sample.printing None in
  let bm := Sample.after_first_cycle in
  let bm' := exec (update_printer "p1" p Sample.sink_ok) bm in
  liveness "p1" p Sample.sink_ok bm = Some ONLINE
  ∧ get_file_name p = Returns None
  ∧ (bm !!! metrics.current_file) !! ["p1"; "a.gcode"] = Some (num 1)
  ∧ Spec.dynamic_update None (bm !!! metrics.current_file) !! ["p1"; "a.gcode"] = None
  ∧ (bm' !!! metrics.current_file) !! ["p1"; "a.gcode"] = Some (num 1).
Proof. intros p bm bm'. repeat split; vm_compute; reflexivity. Qed.

(** C5, amended. An update with a present value first removes every
    combination published under the gauge for the printer and then sets
    the new one to 1; an update without a present value removes
    nothing. At most one combination per printer is present at any
    time, and a present combination reads 1, never 0. After a cycle
    with "a.gcode" and one with "b.gcode" only the combination of
    "b.gcode" is present. *)
Theorem dynamic_label_single_active (name : string) (p : Printer)
    (sr : metrics.Metric → bool) (bm : BambuMetrics) :
  Spec.single_active (bm !!! metrics.current_file) →
  Spec.single_active (bm !!! metrics.nozzle_info) →
  let bm' := exec (update_printer name p sr) bm in
  Spec.single_active (bm' !!! metrics.current_file)
  ∧ Spec.single_active (bm' !!! metrics.nozzle_info)
  ∧ (∀ cycles,
       Spec.single_active
         (after_cycles name cycles (connected_metrics name) !!! metrics.current_file)
       ∧ Spec.single_active
           (after_cycles name cycles (connected_metrics name) !!! metrics.nozzle_info))
  ∧ (∀ f,
       liveness name p sr bm = Some ONLINE →
       sr metrics.printer_online = false →
       sr metrics.current_file = false →
       get_file_name p = Returns (Some f) → f ≠ "" →
       bm' !!! metrics.current_file = {[ [name; f] := num 1 ]})
  ∧ (∀ t d,
       liveness name p sr bm = Some ONLINE →
       sr metrics.printer_online = false →
       sr metrics.nozzle_info = false →
       nozzle_type p = Returns (Some t) →
       nozzle_diameter p = Returns (Some d) →
       bm' !!! metrics.nozzle_info = {[ [name; t; d] := num 1 ]})
  ∧ (∀ g, Spec.dynamic_value_absent p g → bm' !!! g = bm !!! g)
  ∧ (∀ p2,
       get_file_name p = Returns (Some "a.gcode") →
       get_file_name p2 = Returns (Some "b.gcode") →
       liveness name p2 sr bm' = Some ONLINE →
       sr metrics.printer_online = false →
       sr metrics.current_file = false →
       let bm'' := exec (update_printer name p2 sr) bm' in
       bm'' !!! metrics.current_file = {[ [name; "b.gcode"] := num 1 ]}
       ∧ (bm'' !!! metrics.current_file) !! [name; "a.gcode"] = None).
Proof.
  intros Hf Hn bm'.
  destruct (update_printer_single_active name p sr bm Hf Hn) as [Hf' Hn'].
  split; [done|]. split; [done|].
  split; [intros cycles; apply after_cycles_single_active; apply single_active_empty|].
  split; [intros f ? ? ? ? ?; by apply published_file|].
  split; [intros t d ? ? ? ? ?; by apply published_nozzle|].
  split; [intros g ?; by apply update_printer_absent_frame|].
  intros p2 _ Hb Hl Ho Hs bm''. subst bm''.
  rewrite (published_file name p2 sr "b.gcode") by done.
  split; [done|]. by apply lookup_singleton_ne.
Qed.

Lemma dynamic_label_single_active_witness :
  let p := Sample.printing (Some "a.gcode") in
  let p2 := Sample.printing (Some "b.gcode") in
  let bm' := exec (update_printer "p1" p Sample.sink_ok) (connected_metrics "p1") in
  let bm'' := exec (update_printer "p1" p2 Sample.sink_ok) bm' in
  bm'' !!! metrics.current_file = {[ ["p1"; "b.gcode"] := num 1 ]}
  ∧ (bm'' !!! metrics.current_file) !! ["p1"; "a.gcode"] = None.
Proof.
  intros p p2 bm' bm''.
  refine (proj2 (proj2 (proj2 (proj2 (proj2 (proj2
    (dynamic_label_single_active "p1" p Sample.sink_ok (connected_metrics "p1")
       single_active_empty single_active_empty))))))
    p2 eq_refl eq_refl _ eq_refl eq_refl).
  reflexivity.
Defined.

(** C6, as the specification states it, fails: after a cycle that
    published "a.gcode" and a cycle in which the file name is absent,
    the gauge is not empty; the combination of "a.gcode" still reads 1. *)
Lemma absent_file_keeps_old_combination :
  let cycles :=
    [ [("p1", Sample.device (Sample.printing (Some "a.gcode")) Sample.sink_ok)];
      [("p1", Sample.device (Sample.printing None) Sample.sink_ok)] ] in
  let bm := run cycles {[ "p1" := connected_metrics "p1" ]} !!! "p1" in
  get_file_name (Sample.printing None) = Returns None
  ∧ (bm !!! metrics.current_file) !! ["p1"; "a.gcode"] = Some (num 1)
  ∧ bm !!! metrics.current_file ≠ ∅.
Proof.
  intros cycles bm.
  assert (H : (bm !!! metrics.current_file) !! ["p1"; "a.gcode"] = Some (num 1))
    by (vm_compute; reflexivity).
  split; [reflexivity|]. split; [exact H|].
  exact (lookup_Some_nonempty _ _ _ H).
Qed.

(** C6, amended. In every cycle in which the dynamic-label value (the
    file name, or the nozzle type and diameter pair) is absent, no
    combination is republished and none is removed: the gauge keeps the
    combinations it had, so a combination published earlier stays
    present with value 1 until a new value replaces it. *)
Theorem dynamic_label_absent (name : string) (p : Printer)
    (sr : metrics.Metric → bool) (bm : BambuMetrics) (g : metrics.Metric) :
  Spec.dynamic_value_absent p g →
  let bm' := exec (update_printer name p sr) bm in
  bm' !!! g = bm !!! g
  ∧ (∀ l v, (bm !!! g) !! l = Some v → (bm' !!! g) !! l = Some v).
Proof.
  intros Ha bm'. subst bm'.
  rewrite update_printer_absent_frame by done. by split.
Qed.

Lemma dynamic_label_absent_witness :
  let p := Sample.printing None in
  let bm := Sample.after_first_cycle in
  Spec.dynamic_value_absent p metrics.current_file
  ∧ exec (update_printer "p1" p Sample.sink_ok) bm !!! metrics.current_file
    = bm !!! metrics.current_file.
Proof.
  intros p bm. split; [reflexivity|].
  exact (proj1 (dynamic_label_absent "p1" p Sample.sink_ok bm metrics.current_file eq_refl)).
Defined.

(** ** Per-device error isolation *)

Section devices.

Variable name : string.
Variable d : Device.
Variable rest : list (string * Device).
Variable self_metrics : gmap string BambuMetrics.
Variable bm : BambuMetrics.

Let p := dev_printer d.
Let sr := dev_sink_raises d.

(** The cycle of a printer ended normally: the loop goes on. *)
Lemma update_metrics_returned :
  self_metrics !! name = Some bm →
  (update_printer name p sr bm).1 = Ok () →
  update_metrics ((name, d) :: rest) self_metrics
  = update_metrics rest (<[name := exec (update_printer name p sr) bm]> self_metrics).
Proof.
  intros Hm Hr. simpl. rewrite Hm. unfold exec. fold p sr.
  by destruct (update_printer name p sr bm) as [[[]|] bm']; simplify_eq/=.
Qed.

(** An exception left the body and the handler's write was taken: the
    loop goes on with the online gauge at 0. *)
Lemma update_metrics_caught :
  self_metrics !! name = Some bm →
  (update_printer name p sr bm).1 = Raised →
  sr metrics.printer_online = false →
  update_metrics ((name, d) :: rest) self_metrics
  = update_metrics rest
      (<[name :=
           <[metrics.printer_online :=
               <[ [name] := num 0 ]>
                 (exec (update_printer name p sr) bm !!! metrics.printer_online)]>
             (exec (update_printer name p sr) bm)]> self_metrics).
Proof.
  intros Hm Hr Ho. simpl. rewrite Hm. unfold exec. fold p sr.
  destruct (update_printer name p sr bm) as [[[]|] bm']; simplify_eq/=.
  unfold on_error. by rewrite gauge_set_ok.
Qed.

(** An exception left the body and the handler's write raises too: the
    exception leaves [update_metrics]. *)
Lemma update_metrics_escaped :
  self_metrics !! name = Some bm →
  (update_printer name p sr bm).1 = Raised →
  sr metrics.printer_online = true →
  update_metrics ((name, d) :: rest) self_metrics
  = (Raised, <[name := exec (update_printer name p sr) bm]> self_metrics).
Proof.
  intros Hm Hr Ho. simpl. rewrite Hm. unfold exec. fold p sr.
  destruct (update_printer name p sr bm) as [[[]|] bm']; simplify_eq/=.
  unfold on_error. by rewrite gauge_set_fails.
Qed.

(** When the connectivity check raises nothing has been written. *)
Lemma update_printer_unreachable :
  mqtt_client_connected p = Raises →
  update_printer name p sr bm = (Raised, bm).
Proof. intros H. unfold update_printer. by rewrite H. Qed.

End devices.

(** C9, as stated, fails. First, with the sink unavailable the write of
    the handler raises as well: the exception leaves [update_metrics],
    the online gauge of "p1" stays at 1 and "p2", whose transport is
    down, is not processed. Second, when a write of the reset raises,
    the gauges written before it have lost their published values. *)
Lemma sink_failure_breaks_isolation :
  let printers :=
    [ ("p1", Sample.device (Sample.printing None) Sample.sink_down);
      ("p2", Sample.device Sample.unplugged Sample.sink_ok) ] in
  let self_metrics : gmap string BambuMetrics :=
    <["p1" := connected_metrics "p1"]> {[ "p2" := connected_metrics "p2" ]} in
  let after := update_metrics printers self_metrics in
  let rejecting := Sample.device Sample.unplugged (Sample.sink_rejects metrics.bed_temp) in
  let bm := Sample.after_first_cycle in
  let after' := update_metrics [("p1", rejecting)] {[ "p1" := bm ]} in
  ((update_printer "p1" (Sample.printing None) Sample.sink_down (connected_metrics "p1")).1
   = Raised
   ∧ after.1 = Raised
   ∧ shown metrics.printer_online "p1" (after.2 !!! "p1") = Some (num 1)
   ∧ shown metrics.printer_online "p2" (after.2 !!! "p2") = Some (num 1)
   ∧ shown metrics.printer_online "p2"
       ((update_metrics [("p2", Sample.device Sample.unplugged Sample.sink_ok)]
           self_metrics).2 !!! "p2")
     = Some (num 0))
  ∧ ((update_printer "p1" Sample.unplugged (Sample.sink_rejects metrics.bed_temp) bm).1
     = Raised
     ∧ after'.1 = Ok ()
     ∧ shown metrics.printer_online "p1" (after'.2 !!! "p1") = Some (num 0)
     ∧ shown metrics.nozzle_temp "p1" bm = Some (Num (421 # 2)%Q)
     ∧ shown metrics.nozzle_temp "p1" (after'.2 !!! "p1") = Some (num 0)).
Proof. intros. repeat split; vm_compute; reflexivity. Qed.

(** C9, amended. When an exception leaves the body of the loop for one
    printer (the connectivity check or a write outside the per-field
    handlers raises), the handler writes 0 to that printer's online
    gauge; provided that write is taken, the exception is caught and
    the remaining printers of the cycle are processed as usual. No reset
    is performed: every other gauge keeps what it held when the
    exception was raised, which is its previously published value when
    the connectivity check raised, since nothing had been written. *)
Theorem device_error_isolation (name : string) (d : Device)
    (rest : list (string * Device)) (self_metrics : gmap string BambuMetrics)
    (bm : BambuMetrics) :
  self_metrics !! name = Some bm →
  (update_printer name (dev_printer d) (dev_sink_raises d) bm).1 = Raised →
  dev_sink_raises d metrics.printer_online = false →
  let raised_at := exec (update_printer name (dev_printer d) (dev_sink_raises d)) bm in
  let bm' :=
    <[metrics.printer_online :=
        <[ [name] := num 0 ]> (raised_at !!! metrics.printer_online)]> raised_at in
  update_metrics ((name, d) :: rest) self_metrics
  = update_metrics rest (<[name := bm']> self_metrics)
  ∧ shown metrics.printer_online name bm' = Some (num 0)
  ∧ (∀ g, g ≠ metrics.printer_online → bm' !!! g = raised_at !!! g)
  ∧ (mqtt_client_connected (dev_printer d) = Raises → raised_at = bm).
Proof.
  intros Hm Hr Ho raised_at bm'. split; [by apply update_metrics_caught|].
  split; [|split].
  - unfold shown, bm'. rewrite lookup_total_insert_eq. apply lookup_insert_eq.
  - intros g Hg. unfold bm'. by rewrite lookup_total_insert_ne.
  - intros Hc. unfold raised_at, exec. by rewrite update_printer_unreachable.
Qed.

Lemma device_error_isolation_witness :
  let d := Sample.device Sample.unreachable Sample.sink_ok in
  let rest := [("p2", Sample.device Sample.unplugged Sample.sink_ok)] in
  let bm := Sample.after_first_cycle in
  let self_metrics : gmap string BambuMetrics :=
    <["p1" := bm]> {[ "p2" := connected_metrics "p2" ]} in
  exec (update_printer "p1" (dev_printer d) (dev_sink_raises d)) bm = bm
  ∧ update_metrics (("p1", d) :: rest) self_metrics
    = update_metrics rest
        (<["p1" :=
             <[metrics.printer_online :=
                 <[ ["p1"] := num 0 ]> (bm !!! metrics.printer_online)]> bm]>
           self_metrics).
Proof.
  intros d rest bm self_metrics.
  pose proof (device_error_isolation "p1" d rest self_metrics bm
                eq_refl eq_refl eq_refl) as (H1 & _ & _ & H4).
  split; [exact (H4 eq_refl) | exact H1].
Defined.

(** ** The builtins on sample inputs *)

Example float_plain : PyFloat.float "-63" = Some (Num (-63 # 1)).
Proof. reflexivity. Qed.
Example float_fraction : PyFloat.float " 210.5 " = Some (Num (421 # 2)).
Proof. reflexivity. Qed.
Example float_exponent : PyFloat.float "1_2.5e-1" = Some (Num (5 # 4)).
Proof. reflexivity. Qed.
Example float_rounds :
  PyFloat.float "0.1" = Some (Num (3602879701896397 # 36028797018963968))
  ∧ PyFloat.float "9007199254740993" = Some (Num (9007199254740992 # 1))
  ∧ PyFloat.float "1.7976931348623157e308" = Some (Num (inject_Z ((2 ^ 53 - 1) * 2 ^ 971)))
  ∧ PyFloat.float "5e-324" = Some (Num (Qred (1 # Z.to_pos (2 ^ 1074)))).
Proof. repeat split; vm_compute; reflexivity. Qed.
Example float_limits :
  PyFloat.float "1e400" = Some (Inf false)
  ∧ PyFloat.float "-1.7976931348623159e308" = Some (Inf true)
  ∧ PyFloat.float "-1e-400" = Some NegZero
  ∧ PyFloat.float "2e-324" = Some (Num (inject_Z 0))
  ∧ PyFloat.float "-0" = Some NegZero
  ∧ PyFloat.float "0.0" = Some (Num (inject_Z 0)).
Proof. repeat split; vm_compute; reflexivity. Qed.
Example float_words : PyFloat.float "-Infinity" = Some (Inf true) ∧ PyFloat.float "NaN" = Some NaN.
Proof. split; reflexivity. Qed.
Example float_rejects :
  PyFloat.float "N/A" = None ∧ PyFloat.float "" = None ∧ PyFloat.float "." = None
  ∧ PyFloat.float "1__0" = None ∧ PyFloat.float "- 63" = None ∧ PyFloat.float "63dB" = None.
Proof. repeat split; reflexivity. Qed.
Example replace_strip : PyStr.strip (PyStr.replace "dBm" "" "-63dBm") = "-63".
Proof. reflexivity. Qed.
Example replace_all : PyStr.replace "dBm" "x" "dBmdBdBmm" = "xdBxm".
Proof. reflexivity. Qed.
Example upper_lower : PyStr.upper "Paused-1" = "PAUSED-1" ∧ PyStr.lower "ON" = "on".
Proof. split; reflexivity. Qed.

Example signal_strength_samples :
  signal_strength "-63dBm" = Some (Num (-63 # 1)%Q)
  ∧ signal_strength " -70 dBm " = Some (Num (-70 # 1)%Q)
  ∧ signal_strength "N/A" = None.
Proof. repeat split; reflexivity. Qed.

Example state_value_samples :
  state_value "PRINTING" (Some "PAUSED") = 2
  ∧ state_value "RUNNING" None = 1
  ∧ state_value "PRINTING" (Some "BOGUS") = 1
  ∧ state_value "BOGUS" None = 0
  ∧ state_value "idle" (Some "finish") = 3
  ∧ state_value "FINISHED" None = 0.
Proof. repeat split; reflexivity. Qed.

(** * Further properties of the cycle *)

(** ** The effect of a cycle, gauge by gauge *)

Lemma eff_apply_none (g : metrics.Metric) (old : Gauge) : eff_apply eff_none g old = old.
Proof.
  unfold eff_apply. simpl. by rewrite (left_id_L ∅ (∪)), (right_id_L ∅ (∪)).
Qed.

Lemma eff_apply_then (e1 e2 : Effect) (g : metrics.Metric) (old : Gauge) :
  eff_apply (eff_then e1 e2) g old = eff_apply e2 g (eff_apply e1 g old).
Proof.
  unfold eff_apply, eff_then. simpl.
  destruct (eff_clears e2 g); simpl.
  - by rewrite !(right_id_L ∅ (∪)), (left_id_L ∅ (∪)).
  - by rewrite !(assoc_L (∪)).
Qed.

(** Applying an effect twice is applying it once. *)
Lemma eff_apply_idemp (e : Effect) (g : metrics.Metric) (old : Gauge) :
  eff_apply e g (eff_apply e g old) = eff_apply e g old.
Proof.
  unfold eff_apply. destruct (eff_clears e g); [done|].
  rewrite !(assoc_L (∪)), (idemp_L (∪) (eff_writes e g)).
  by rewrite <- (assoc_L (∪) _ (eff_creates e g)), (idemp_L (∪)).
Qed.

Section summaries.

Context {A B : Type}.

Lemma has_summary_ret (a : A) : has_summary (mret a : M A).
Proof. exists (Ok a), eff_none. intros bm. split; [done|]. intros g. by rewrite eff_apply_none. Qed.

Lemma has_summary_raise : has_summary (raise : M A).
Proof. exists Raised, eff_none. intros bm. split; [done|]. intros g. by rewrite eff_apply_none. Qed.

Lemma has_summary_call (r : Read A) : has_summary (call r).
Proof. destruct r; [apply has_summary_raise | apply has_summary_ret]. Qed.

Lemma has_summary_bind (c : M A) (k : A → M B) :
  has_summary c → (∀ a, has_summary (k a)) → has_summary (c ≫= k).
Proof.
  intros (o & e1 & Hc) Hk. destruct o as [a|].
  - destruct (Hk a) as (o2 & e2 & Hk2). exists o2, (eff_then e1 e2).
    intros bm. destruct (Hc bm) as [Ho Hg]. destruct (Hk2 (exec c bm)) as [Ho2 Hg2].
    unfold exec, mbind, M_bind in *. destruct (c bm) as [o' bm']; simplify_eq/=.
    split; [done|]. intros g. by rewrite eff_apply_then, Hg2, Hg.
  - exists Raised, e1. intros bm. destruct (Hc bm) as [Ho Hg].
    unfold exec, mbind, M_bind in *. by destruct (c bm) as [o' bm']; simplify_eq/=.
Qed.

Lemma has_summary_try (body handler : M A) :
  has_summary body → has_summary handler → has_summary (TRY body EXCEPT handler).
Proof.
  intros (o & e1 & Hb) (o2 & e2 & Hh). destruct o as [a|].
  - exists (Ok a), e1. intros bm. destruct (Hb bm) as [Ho Hg].
    unfold exec, try_except in *. by destruct (body bm) as [o' bm']; simplify_eq/=.
  - exists o2, (eff_then e1 e2).
    intros bm. destruct (Hb bm) as [Ho Hg]. destruct (Hh (exec body bm)) as [Ho2 Hg2].
    unfold exec, try_except in *. destruct (body bm) as [o' bm']; simplify_eq/=.
    split; [done|]. intros g. by rewrite eff_apply_then, Hg2, Hg.
Qed.

End summaries.

Lemma has_summary_gauge_set (sr : metrics.Metric → bool) (g : metrics.Metric)
    (labels : list string) (v : Value) :
  has_summary (gauge_set sr g labels v).
Proof.
  destruct (sr g) eqn:Hs.
  - exists Raised, eff_none. intros bm. unfold exec. rewrite gauge_set_fails by done.
    split; [done|]. intros g'. by rewrite eff_apply_none.
  - exists (Ok ()),
      {| eff_writes := λ g', if decide (g' = g) then {[ labels := v ]} else ∅;
         eff_clears := λ _, false;
         eff_creates := λ _, ∅ |}.
    intros bm. unfold exec. rewrite gauge_set_ok by done. split; [done|].
    intros g'. unfold eff_apply. simpl. rewrite (right_id_L ∅ (∪)).
    destruct (decide (g' = g)) as [->|Hne].
    + by rewrite lookup_total_insert_eq, insert_union_singleton_l.
    + by rewrite lookup_total_insert_ne, (left_id_L ∅ (∪)).
Qed.

Lemma has_summary_gauge_labels (sr : metrics.Metric → bool) (g : metrics.Metric)
    (labels : list string) :
  has_summary (gauge_labels sr g labels).
Proof.
  destruct (sr g) eqn:Hs.
  - exists Raised, eff_none. intros bm. unfold exec, gauge_labels. rewrite Hs.
    split; [done|]. intros g'. by rewrite eff_apply_none.
  - exists (Ok ()),
      {| eff_writes := λ _, ∅;
         eff_clears := λ _, false;
         eff_creates := λ g', if decide (g' = g) then {[ labels := num 0 ]} else ∅ |}.
    intros bm. unfold exec, gauge_labels. rewrite Hs.
    split; [by destruct ((bm !!! g) !! labels)|].
    intros g'. unfold eff_apply. simpl. rewrite (left_id_L ∅ (∪)).
    destruct (decide (g' = g)) as [->|Hne].
    + destruct ((bm !!! g) !! labels) as [v|] eqn:E; simpl.
      * apply map_eq. intros l. rewrite lookup_union.
        destruct (decide (l = labels)) as [->|Hl].
        -- by rewrite E, lookup_singleton_eq.
        -- rewrite lookup_singleton_ne by done. by destruct ((bm !!! g) !! l).
      * rewrite lookup_total_insert_eq. apply map_eq. intros l. rewrite lookup_union.
        destruct (decide (l = labels)) as [->|Hl].
        -- by rewrite lookup_insert_eq, E, lookup_singleton_eq.
        -- rewrite lookup_insert_ne, lookup_singleton_ne by done.
           by destruct ((bm !!! g) !! l).
    + rewrite (right_id_L ∅ (∪)). destruct ((bm !!! g) !! labels); simpl; [done|].
      by rewrite lookup_total_insert_ne.
Qed.

Lemma has_summary_gauge_clear (g : metrics.Metric) : has_summary (gauge_clear g).
Proof.
  exists (Ok ()),
    {| eff_writes := λ _, ∅; eff_clears := λ g', bool_decide (g' = g);
       eff_creates := λ _, ∅ |}.
  intros bm. split; [done|]. intros g'. unfold exec, gauge_clear, eff_apply. simpl.
  rewrite (left_id_L ∅ (∪)), (right_id_L ∅ (∪)). case_bool_decide as Hg.
  - subst. by rewrite lookup_total_insert_eq.
  - by rewrite lookup_total_insert_ne.
Qed.

Ltac summarise_step :=
  first
    [ apply has_summary_ret
    | apply has_summary_raise
    | apply has_summary_call
    | apply has_summary_gauge_set
    | apply has_summary_gauge_labels
    | apply has_summary_gauge_clear
    | apply has_summary_try
    | apply has_summary_bind; [| intros ?]
    | match goal with
      | |- has_summary (match ?x with _ => _ end) => destruct x
      end ].

Ltac summarise := repeat summarise_step.

Lemma update_printer_has_summary (name : string) (p : Printer)
    (sr : metrics.Metric → bool) :
  has_summary (update_printer name p sr).
Proof. unfold update_printer. unfold_blocks. summarise. Qed.

(** X1. A cycle is idempotent: run again with the same answers of the
    client and of the sink, it ends the same way and leaves every gauge
    as the first run left it. *)
Theorem cycle_idempotent (name : string) (p : Printer) (sr : metrics.Metric → bool)
    (bm : BambuMetrics) :
  let once := exec (update_printer name p sr) bm in
  (update_printer name p sr once).1 = (update_printer name p sr bm).1
  ∧ ∀ g, exec (update_printer name p sr) once !!! g = once !!! g.
Proof.
  intros once. subst once.
  destruct (update_printer_has_summary name p sr) as (o & e & H).
  destruct (H bm) as [Ho Hg]. destruct (H (exec (update_printer name p sr) bm)) as [Ho' Hg'].
  split; [congruence|]. intros g. by rewrite Hg', Hg, eff_apply_idemp.
Qed.

(** X2. A cycle acts gauge by gauge: whether it raises does not depend
    on the stored gauges, and what a gauge holds afterwards depends on
    what that gauge held before and on nothing else in the store. *)
Theorem cycle_acts_gauge_by_gauge (name : string) (p : Printer)
    (sr : metrics.Metric → bool) (bm1 bm2 : BambuMetrics) (g : metrics.Metric) :
  bm1 !!! g = bm2 !!! g →
  (update_printer name p sr bm1).1 = (update_printer name p sr bm2).1
  ∧ exec (update_printer name p sr) bm1 !!! g = exec (update_printer name p sr) bm2 !!! g.
Proof.
  intros Hg.
  destruct (update_printer_has_summary name p sr) as (o & e & H).
  destruct (H bm1) as [Ho1 Hg1]. destruct (H bm2) as [Ho2 Hg2].
  split; [congruence|]. by rewrite Hg1, Hg2, Hg.
Qed.

Lemma cycle_acts_gauge_by_gauge_witness :
  let p := Sample.unplugged in
  exec (update_printer "p1" p Sample.sink_ok) Sample.after_first_cycle
    !!! metrics.printer_online
  = exec (update_printer "p1" p Sample.sink_ok) (connected_metrics "p1")
      !!! metrics.printer_online.
Proof.
  intros p.
  exact (proj2 (cycle_acts_gauge_by_gauge "p1" p Sample.sink_ok
                  Sample.after_first_cycle (connected_metrics "p1")
                  metrics.printer_online eq_refl)).
Defined.

(** ** What the gauges can hold *)

Lemma state_code_range (s : string) : 0 ≤ state_code s ≤ 4.
Proof.
  unfold state_code. destruct (state_mapping !! s) as [z|] eqn:E; simpl; [|lia].
  apply elem_of_list_to_map_2 in E. unfold state_mapping_items in E.
  repeat (apply elem_of_cons in E as [[= -> ->] | E]; [lia|]).
  by apply elem_of_nil in E.
Qed.

Lemma state_value_range (state : string) (gcode : option string) :
  0 ≤ state_value state gcode ≤ 4.
Proof. apply state_code_range. Qed.

Lemma light_value_bit (l : string) : light_value l = 0 ∨ light_value l = 1.
Proof. unfold light_value. destruct (bool_decide _); auto. Qed.

Section keeping.

Context {A B : Type}.
Variable I : BambuMetrics → Prop.

Lemma keeps_ret (a : A) : keeps I (mret a : M A).
Proof. by intros bm. Qed.

Lemma keeps_raise : keeps I (raise : M A).
Proof. by intros bm. Qed.

Lemma keeps_call (r : Read A) : keeps I (call r).
Proof. by destruct r; intros bm. Qed.

Lemma keeps_bind (c : M A) (k : A → M B) :
  keeps I c → (∀ a, keeps I (k a)) → keeps I (c ≫= k).
Proof.
  intros Hc Hk bm Hbm. specialize (Hc bm Hbm). unfold exec, mbind, M_bind in *.
  destruct (c bm) as [[a|] bm']; simpl in *; [|done]. by apply Hk.
Qed.

Lemma keeps_try (body handler : M A) :
  keeps I body → keeps I handler → keeps I (TRY body EXCEPT handler).
Proof.
  intros Hb Hh bm Hbm. specialize (Hb bm Hbm). unfold exec, try_except in *.
  destruct (body bm) as [[a|] bm']; simpl in *; [done|]. by apply Hh.
Qed.

End keeping.

Section well_formed.

Variable name : string.
Variable sr : metrics.Metric → bool.

Lemma keeps_gauge_set (g : metrics.Metric) (labels : list string) (v : Value) :
  labels_ok name g labels → value_ok g v →
  keeps (well_formed name) (gauge_set sr g labels v).
Proof.
  intros Hl Hv bm Hbm. unfold exec, gauge_set. destruct (sr g); [done|]. simpl.
  intros g' labels' v'. destruct (decide (g' = g)) as [->|Hne].
  - rewrite lookup_total_insert_eq.
    destruct (decide (labels' = labels)) as [->|Hne'].
    + rewrite lookup_insert_eq. by intros [= <-].
    + rewrite lookup_insert_ne by done. apply Hbm.
  - rewrite lookup_total_insert_ne by done. apply Hbm.
Qed.

Lemma keeps_gauge_labels (g : metrics.Metric) (labels : list string) :
  labels_ok name g labels → value_ok g (num 0) →
  keeps (well_formed name) (gauge_labels sr g labels).
Proof.
  intros Hl Hv bm Hbm. unfold exec, gauge_labels. destruct (sr g); [done|].
  destruct ((bm !!! g) !! labels) eqn:E; simpl; [done|].
  intros g' labels' v'. destruct (decide (g' = g)) as [->|Hne].
  - rewrite lookup_total_insert_eq.
    destruct (decide (labels' = labels)) as [->|Hne'].
    + rewrite lookup_insert_eq. by intros [= <-].
    + rewrite lookup_insert_ne by done. apply Hbm.
  - rewrite lookup_total_insert_ne by done. apply Hbm.
Qed.

Lemma keeps_gauge_clear (g : metrics.Metric) :
  keeps (well_formed name) (gauge_clear g).
Proof.
  intros bm Hbm. unfold exec, gauge_clear. simpl.
  intros g' labels' v'. destruct (decide (g' = g)) as [->|Hne].
  - by rewrite lookup_total_insert_eq, lookup_empty.
  - rewrite lookup_total_insert_ne by done. apply Hbm.
Qed.

End well_formed.

(** Decomposes an invariant goal along the statement; the writes are
    left to be checked. *)
Ltac keep_step :=
  first
    [ apply keeps_ret
    | apply keeps_raise
    | apply keeps_call
    | apply keeps_gauge_clear
    | apply keeps_try
    | apply keeps_bind; [| intros ?]
    | match goal with
      | |- keeps _ (match ?x with _ => _ end) => destruct x
      end ].

Ltac keep := repeat keep_step.

Ltac sample_check :=
  first
    [ by split
    | by eexists
    | by left
    | by right ].

Lemma update_printer_well_formed (name : string) (p : Printer)
    (sr : metrics.Metric → bool) :
  keeps (well_formed name) (update_printer name p sr).
Proof.
  unfold update_printer. unfold_blocks. keep.
  all: first [apply keeps_gauge_set | apply keeps_gauge_labels]; try sample_check.
  all: try (eexists; split; [done | apply state_value_range]).
  all: match goal with
       | |- context [light_value ?l] =>
           destruct (light_value_bit l) as [-> | ->]; sample_check
       end.
Qed.

Lemma connected_metrics_well_formed (name : string) :
  well_formed name (connected_metrics name).
Proof.
  intros g labels v. unfold connected_metrics.
  destruct (decide (g = metrics.printer_online)) as [->|Hne].
  - rewrite lookup_total_singleton_eq.
    intros [<- <-]%lookup_singleton_Some. split; [done | by right].
  - by rewrite lookup_total_singleton_ne.
Qed.

Lemma after_cycles_well_formed (name : string) (cycles : list Device)
    (bm : BambuMetrics) :
  well_formed name bm → well_formed name (after_cycles name cycles bm).
Proof.
  revert bm. induction cycles as [|d cycles IH]; intros bm Hbm; [done|].
  simpl. apply IH. by apply update_printer_well_formed.
Qed.

(** X3. Label sets. Whatever the client answers and whatever the sink
    refuses, every sample a printer's gauges hold after any number of
    cycles carries as many label values as the gauge declares label
    names in [BambuMetrics.__init__], the first being the printer's
    name. *)
Theorem samples_carry_declared_labels (name : string) (cycles : list Device)
    (g : metrics.Metric) (labels : list string) (v : Value) :
  (after_cycles name cycles (connected_metrics name) !!! g) !! labels = Some v →
  length labels = length (labelnames g) ∧ head labels = Some name.
Proof.
  intros H.
  by destruct (after_cycles_well_formed name cycles (connected_metrics name)
                 (connected_metrics_well_formed name) g labels v H).
Qed.

Lemma samples_carry_declared_labels_witness :
  length ["p1"; "a.gcode"] = length (labelnames metrics.current_file)
  ∧ head ["p1"; "a.gcode"] = Some "p1".
Proof.
  exact (samples_carry_declared_labels "p1"
           [Sample.device (Sample.printing (Some "a.gcode")) Sample.sink_ok]
           metrics.current_file ["p1"; "a.gcode"] (num 1) eq_refl).
Defined.

(** X4. Value ranges. After any number of cycles the online and light
    gauges hold 0 or 1, the state gauge an integer from 0 to 4, the
    dynamic-label gauges 1, the two target-temperature gauges 0 and the
    error gauge an integer. *)
Theorem gauge_values_in_range (name : string) (cycles : list Device)
    (g : metrics.Metric) (labels : list string) (v : Value) :
  (after_cycles name cycles (connected_metrics name) !!! g) !! labels = Some v →
  match g with
  | metrics.printer_online | metrics.chamber_light => v = num 0 ∨ v = num 1
  | metrics.printer_state => ∃ z, v = num z ∧ 0 ≤ z ≤ 4
  | metrics.current_file | metrics.nozzle_info => v = num 1
  | metrics.nozzle_target_temp | metrics.bed_target_temp => v = num 0
  | metrics.error_code => ∃ z, v = num z
  | _ => True
  end.
Proof.
  intros H.
  destruct (after_cycles_well_formed name cycles (connected_metrics name)
              (connected_metrics_well_formed name) g labels v H) as [_ Hv].
  by destruct g.
Qed.

Lemma gauge_values_in_range_witness :
  ∃ z, num 1 = num z ∧ 0 ≤ z ≤ 4.
Proof.
  exact (gauge_values_in_range "p1"
           [Sample.device (Sample.printing (Some "a.gcode")) Sample.sink_ok]
           metrics.printer_state ["p1"] (num 1) eq_refl).
Defined.

(** ** Letter case of the state names *)

Lemma upper_lower_char (c : ascii) :
  PyStr.upper_char (PyStr.lower_char c) = PyStr.upper_char c.
Proof. by destruct c as [[] [] [] [] [] [] [] []]. Qed.

Lemma upper_upper_char (c : ascii) :
  PyStr.upper_char (PyStr.upper_char c) = PyStr.upper_char c.
Proof. by destruct c as [[] [] [] [] [] [] [] []]. Qed.

Lemma upper_of_lower (s : string) : PyStr.upper (PyStr.lower s) = PyStr.upper s.
Proof. induction s as [|c s IH]; [done|]. simpl. by rewrite upper_lower_char, IH. Qed.

Lemma upper_of_upper (s : string) : PyStr.upper (PyStr.upper s) = PyStr.upper s.
Proof. induction s as [|c s IH]; [done|]. simpl. by rewrite upper_upper_char, IH. Qed.

Lemma truthy_fmap (f : string → string) (g : option string) :
  (∀ s, f s = "" ↔ s = "") → truthy (f <$> g) = truthy g.
Proof.
  intros Hf. destruct g as [s|]; [|done]. simpl. f_equal.
  apply bool_decide_ext, Hf.
Qed.

Lemma lower_empty (s : string) : PyStr.lower s = "" ↔ s = "".
Proof. by destruct s. Qed.

Lemma upper_empty (s : string) : PyStr.upper s = "" ↔ s = "".
Proof. by destruct s. Qed.

(** X5. The state names are matched without regard to letter case: the
    published state is the same when the coarse and the granular value
    are given in lower case or in upper case. *)
Theorem state_value_ignores_case (state : string) (gcode : option string) :
  state_value (PyStr.lower state) (PyStr.lower <$> gcode) = state_value state gcode
  ∧ state_value (PyStr.upper state) (PyStr.upper <$> gcode) = state_value state gcode.
Proof.
  unfold state_value, reconciled_name. split.
  - rewrite (truthy_fmap _ _ lower_empty), upper_of_lower.
    destruct gcode as [g|]; [|done]. simpl. by rewrite upper_of_lower.
  - rewrite (truthy_fmap _ _ upper_empty), upper_of_upper.
    destruct gcode as [g|]; [|done]. simpl. by rewrite upper_of_upper.
Qed.

(** ** Fields published as they are read *)

Lemma exec_bind_total {A B : Type} (c : M A) (k : A → M B) (bm : BambuMetrics) :
  total c → ∃ a, exec (c ≫= k) bm = exec (k a) (exec c bm).
Proof.
  intros Hc. destruct (exec_bind c k bm Hc) as (a & _ & H).
  exists a. unfold exec at 1 2. by rewrite H.
Qed.

Section plain.

Variable name : string.
Variable p : Printer.
Variable sr : metrics.Metric → bool.

(** The temperature blocks, one after the other. *)
Lemma exec_read_temperatures (bm : BambuMetrics) :
  exec (read_temperatures name p sr) bm
  = exec (read_chamber_temp name p sr)
      (exec (read_bed_temp name p sr) (exec (read_nozzle_temp name p sr) bm)).
Proof.
  unfold read_temperatures.
  destruct (exec_bind_total (read_nozzle_temp name p sr)
              (λ d1, d2 ← read_bed_temp name p sr;
                     d3 ← read_chamber_temp name p sr; mret (d1 || d2 || d3)) bm)
    as [d1 ->]; [unfold_blocks; totality|].
  destruct (exec_bind_total (read_bed_temp name p sr)
              (λ d2, d3 ← read_chamber_temp name p sr; mret (d1 || d2 || d3))
              (exec (read_nozzle_temp name p sr) bm))
    as [d2 ->]; [unfold_blocks; totality|].
  destruct (exec_bind_total (read_chamber_temp name p sr)
              (λ d3, mret (d1 || d2 || d3))
              (exec (read_bed_temp name p sr) (exec (read_nozzle_temp name p sr) bm)))
    as [d3 ->]; [unfold_blocks; totality|].
  done.
Qed.

(** A block that publishes what its getter returned. *)
Lemma value_block_unit (g : metrics.Metric) (get : Read (option Q)) (v : Q)
    (bm : BambuMetrics) :
  get = Returns (Some v) →
  sr g = false →
  exec (TRY
          x ← call get;
          match x with
          | Some t => gauge_set sr g [name] (Num t)
          | None => mret ()
          end
        EXCEPT mret ()) bm !!! g
  = <[ [name] := Num v ]> (bm !!! g).
Proof. intros -> Hs. run. rewrite Hs. simpl. by rewrite lookup_total_insert_eq. Qed.

Lemma value_block_bool (g : metrics.Metric) (get : Read (option Q)) (v : Q)
    (bm : BambuMetrics) :
  get = Returns (Some v) →
  sr g = false →
  exec (TRY
          x ← call get;
          match x with
          | Some t => gauge_set sr g [name] (Num t);; mret true
          | None => mret false
          end
        EXCEPT mret false) bm !!! g
  = <[ [name] := Num v ]> (bm !!! g).
Proof. intros -> Hs. run. rewrite Hs. simpl. by rewrite lookup_total_insert_eq. Qed.

(** The gauge of a plain field at the end of an ONLINE cycle, when its
    getter returned [v] and the sink takes the write. *)
Lemma plain_block_value (g : metrics.Metric) (v : Q) (bm : BambuMetrics) :
  plain_getter p g = Some (Returns (Some v)) →
  sr g = false →
  liveness name p sr bm = Some ONLINE →
  sr metrics.printer_online = false →
  exec (update_printer name p sr) bm !!! g = <[ [name] := Num v ]> (bm !!! g).
Proof.
  intros Hg Hs Hl Ho.
  rewrite exec_update_printer_online, Ho, exec_read_remaining_fields by done.
  destruct g; simplify_eq/=; frame_out unfold_blocks.
  - rewrite lookup_total_insert_ne, exec_read_temperatures by done.
    frame_out unfold_blocks. unfold read_nozzle_temp.
    by rewrite (value_block_bool _ _ v).
  - rewrite lookup_total_insert_ne, exec_read_temperatures by done.
    frame_out unfold_blocks. unfold read_bed_temp.
    rewrite (value_block_bool _ _ v) by done. by frame_out unfold_blocks.
  - rewrite lookup_total_insert_ne, exec_read_temperatures by done.
    unfold read_chamber_temp at 1.
    rewrite (value_block_bool _ _ v) by done. by frame_out unfold_blocks.
  - unfold read_progress. rewrite (value_block_unit _ _ v) by done.
    by rewrite lookup_total_insert_ne, read_temperatures_frame.
  - unfold read_current_layer at 1. rewrite (value_block_unit _ _ v) by done.
    frame_out unfold_blocks.
    by rewrite lookup_total_insert_ne, read_temperatures_frame.
  - unfold read_total_layers at 1. rewrite (value_block_unit _ _ v) by done.
    frame_out unfold_blocks.
    by rewrite lookup_total_insert_ne, read_temperatures_frame.
  - unfold read_print_speed at 1. rewrite (value_block_unit _ _ v) by done.
    frame_out unfold_blocks.
    by rewrite lookup_total_insert_ne, read_temperatures_frame.
Qed.

(** The blocks leave a plain gauge alone when its getter raised or
    returned [None]. *)
Lemma plain_absent_frame (g : metrics.Metric) (r : Read (option Q)) :
  plain_getter p g = Some r →
  present r = false →
  preserves g (read_temperatures name p sr)
  ∧ preserves g (read_remaining_fields name p sr).
Proof.
  intros Hg Hr.
  destruct g; simplify_eq/=; unfold_blocks;
    match goal with
    | H : present ?r = false |- _ => destruct r as [|[?|]]; [| done |]
    end; split; preserve.
Qed.

End plain.

(** [int(error_code) if error_code else 0] is the code itself. *)
Lemma error_value_id (e : Z) : error_value e = e.
Proof. unfold error_value. case_bool_decide; [done|]. by destruct (decide (e = 0)). Qed.

Lemma exec_read_error_code (name : string) (p : Printer) (sr : metrics.Metric → bool)
    (e : Z) (bm : BambuMetrics) :
  print_error_code p = Returns (Some e) →
  sr metrics.error_code = false →
  exec (read_error_code name p sr) bm !!! metrics.error_code
  = <[ [name] := num e ]> (bm !!! metrics.error_code).
Proof.
  intros Hg Hs. unfold read_error_code. rewrite Hg. run. rewrite Hs. simpl.
  by rewrite lookup_total_insert_eq, error_value_id.
Qed.

(** X6. Plain fields. In an ONLINE cycle, the nozzle, bed and chamber
    temperature, the progress, the two layer counts and the print speed
    are published exactly as the client returned them, and so is the
    error code, when the sink takes the write. *)
Theorem fields_published_as_reported (name : string) (p : Printer)
    (sr : metrics.Metric → bool) (bm : BambuMetrics) :
  liveness name p sr bm = Some ONLINE →
  sr metrics.printer_online = false →
  let bm' := exec (update_printer name p sr) bm in
  (∀ g v, plain_getter p g = Some (Returns (Some v)) → sr g = false →
     shown g name bm' = Some (Num v))
  ∧ (∀ e, print_error_code p = Returns (Some e) → sr metrics.error_code = false →
     shown metrics.error_code name bm' = Some (num e)).
Proof.
  intros Hl Ho bm'. subst bm'. unfold shown. split.
  - intros g v Hg Hs. rewrite (plain_block_value name p sr g v) by done.
    apply lookup_insert_eq.
  - intros e Hg Hs.
    rewrite exec_update_printer_online, Ho, exec_read_remaining_fields by done.
    frame_out unfold_blocks. rewrite (exec_read_error_code _ _ _ e) by done.
    apply lookup_insert_eq.
Qed.

Lemma fields_published_as_reported_witness :
  shown metrics.bed_temp "p1"
    (exec (update_printer "p1" (Sample.printing None) Sample.sink_ok)
       (connected_metrics "p1"))
  = Some (Num (60 # 1)%Q).
Proof.
  exact (proj1 (fields_published_as_reported "p1" (Sample.printing None) Sample.sink_ok
                  (connected_metrics "p1") eq_refl eq_refl)
           metrics.bed_temp (60 # 1)%Q eq_refl eq_refl).
Defined.

(** X7. Stale values. In an ONLINE cycle, a plain field whose getter
    raised or returned [None] keeps in its gauge whatever an earlier
    cycle published: nothing marks the value as missing. *)
Theorem absent_field_keeps_last_value (name : string) (p : Printer)
    (sr : metrics.Metric → bool) (bm : BambuMetrics) (g : metrics.Metric)
    (r : Read (option Q)) :
  liveness name p sr bm = Some ONLINE →
  plain_getter p g = Some r →
  present r = false →
  exec (update_printer name p sr) bm !!! g = bm !!! g.
Proof.
  intros Hl Hg Hr.
  destruct (plain_absent_frame name p sr g r Hg Hr) as [H1 H2].
  assert (Hne : g ≠ metrics.printer_online) by (by destruct g).
  rewrite exec_update_printer_online by done.
  destruct (sr metrics.printer_online); [apply H1|].
  by rewrite H2, lookup_total_insert_ne, H1.
Qed.

Lemma absent_field_keeps_last_value_witness :
  let p := Sample.reporting Raises Sample.warm None None None None None None in
  shown metrics.nozzle_temp "p1"
    (exec (update_printer "p1" p Sample.sink_ok) Sample.after_first_cycle)
  = Some (Num (421 # 2)%Q).
Proof.
  intros p. unfold shown.
  rewrite (absent_field_keeps_last_value "p1" p Sample.sink_ok Sample.after_first_cycle
             metrics.nozzle_temp Raises eq_refl eq_refl eq_refl).
  reflexivity.
Defined.

(** ** Per-field fault isolation over the whole cycle *)

Section collection.

Variable name : string.
Variable p : Printer.
Variable sr : metrics.Metric → bool.
Hypothesis sink_takes_writes : ∀ g, sr g = false.
Implicit Types (bm : BambuMetrics) (g : metrics.Metric).

(** With a sink that takes the writes, the three temperature reads
    decide between ONLINE and the silent reset. *)
Lemma liveness_by_temperatures bm :
  liveness name p sr bm =
    match mqtt_client_connected p with
    | Raises => None
    | Returns false => Some OFFLINE_DISCONNECTED
    | Returns true =>
        if temperature_returned_data p then Some ONLINE else Some OFFLINE_SILENT
    end.
Proof. by rewrite liveness_value, temperature_published_returned. Qed.

(** Both offline branches end normally and leave the reset gauges at 0. *)
Lemma offline_cycle_resets g bm :
  liveness name p sr bm = Some OFFLINE_DISCONNECTED
  ∨ liveness name p sr bm = Some OFFLINE_SILENT →
  g ∈ reset_gauges →
  (update_printer name p sr bm).1 = Ok ()
  ∧ shown g name (exec (update_printer name p sr) bm) = Some (num 0).
Proof.
  intros Hl Hg.
  assert (Ht : ∀ v, total (gauge_set sr metrics.printer_online [name] v))
    by (intros v; apply total_gauge_set, sink_takes_writes).
  destruct Hl as [Hl | Hl].
  - assert (Hc : mqtt_client_connected p = Returns false).
    { rewrite liveness_value in Hl.
      destruct (mqtt_client_connected p) as [|[|]]; try done.
      by destruct (temperature_published p sr). }
    unfold exec at 1. rewrite update_printer_disconnected, exec_seq by done.
    by apply reset_disconnected_zero.
  - unfold exec at 1. rewrite update_printer_silent, exec_seq by done.
    rewrite !reset_silent_disconnected. by apply reset_disconnected_zero.
Qed.

(** An ONLINE cycle leaves alone every gauge that its blocks leave
    alone, the online gauge apart. *)
Lemma online_cycle_frame g bm :
  liveness name p sr bm = Some ONLINE →
  g ≠ metrics.printer_online →
  preserves g (read_temperatures name p sr) →
  preserves g (read_remaining_fields name p sr) →
  exec (update_printer name p sr) bm !!! g = bm !!! g.
Proof.
  intros Hl Hne H1 H2.
  rewrite exec_update_printer_online, sink_takes_writes by done.
  by rewrite H2, lookup_total_insert_ne, H1.
Qed.

(** A field that delivered nothing leaves its gauge as it was. *)
Lemma delivers_nothing_frame g bm :
  liveness name p sr bm = Some ONLINE →
  delivers_nothing p g →
  exec (update_printer name p sr) bm !!! g = bm !!! g.
Proof.
  intros Hl Hd.
  destruct g; simpl in Hd; try done;
    try (by apply update_printer_absent_frame);
    (apply online_cycle_frame; [done | done | |]);
    unfold_blocks;
    try match goal with
      | H : present ?r = false |- _ => destruct r as [|[?|]]; [| done |]
      end;
    preserve.
Qed.

Lemma published_error_code e bm :
  liveness name p sr bm = Some ONLINE →
  print_error_code p = Returns (Some e) →
  shown metrics.error_code name (exec (update_printer name p sr) bm) = Some (num e).
Proof.
  intros Hl Hg. unfold shown.
  rewrite exec_update_printer_online, sink_takes_writes, exec_read_remaining_fields
    by done.
  frame_out unfold_blocks. rewrite (exec_read_error_code _ _ _ e) by done.
  apply lookup_insert_eq.
Qed.

(** Whatever a field of an ONLINE cycle reports is published, whatever
    the other fields did. *)
Lemma reported_published g v bm :
  liveness name p sr bm = Some ONLINE →
  reported p g = Some v →
  shown g name (exec (update_printer name p sr) bm) = Some v.
Proof.
  intros Hl Hr.
  destruct (unit_conversions name p sr bm Hl (sink_takes_writes _))
    as (Htime & Hwifi & _ & _ & _ & Hlight).
  assert (Hplain : ∀ g' x, plain_getter p g' = Some (Returns (Some x)) →
            shown g' name (exec (update_printer name p sr) bm) = Some (Num x)).
  { intros g' x Hg. unfold shown. rewrite (plain_block_value name p sr g' x) by done.
    apply lookup_insert_eq. }
  destruct g; simpl in Hr; try done;
    try match type of Hr with
      | context [match ?r with _ => _ end] =>
          destruct r as [|[x|]] eqn:E; simplify_eq
      end;
    try (apply Hplain; simpl; by rewrite E).
  - by apply Htime.
  - simplify_eq. by apply online_gauge_online.
  - by apply published_state.
  - by apply (Hwifi x).
  - rewrite (Hlight x) by done. by rewrite light_value_on.
  - by apply published_error_code.
Qed.

End collection.

(** C7, amended. For every printer whose connectivity check answers and
    every cycle, with a sink that takes the writes: a read that raises
    is caught and has the effect of a read that returns [None], on the
    whole cycle and for every field, and the cycle ends normally. The
    full reset runs exactly when the transport reports not connected or
    none of the nozzle, bed and chamber temperature yields data: then
    the online gauge and the twelve reset gauges show 0, whatever the
    other fields report. Otherwise the printer is classified ONLINE and
    the collection of every field proceeds: each field that reports a
    value is published, whatever the other fields did, and each field
    that raised or reported nothing leaves its gauge untouched, as are
    the two target temperatures, so no reset ran. In particular, when
    the nozzle temperature read raises while the bed or chamber
    temperature reports data, the printer stays ONLINE and the nozzle
    gauge keeps its last value. *)
Theorem field_fault_isolation (name : string) (p : Printer) (sr : metrics.Metric → bool)
    (bm : BambuMetrics) (connected : bool) :
  (∀ g, sr g = false) →
  mqtt_client_connected p = Returns connected →
  let bm' := exec (update_printer name p sr) bm in
  let reset := negb connected || negb (temperature_returned_data p) in
  (∀ p0 sr0 bm0,
     update_printer name (Spec.absent_on_failure p0) sr0 bm0
     = update_printer name p0 sr0 bm0)
  ∧ (update_printer name p sr bm).1 = Ok ()
  ∧ (reset = true →
       liveness name p sr bm ≠ Some ONLINE
       ∧ shown metrics.printer_online name bm' = Some (num 0)
       ∧ ∀ g, g ∈ reset_gauges → shown g name bm' = Some (num 0))
  ∧ (reset = false →
       liveness name p sr bm = Some ONLINE
       ∧ (∀ g v, reported p g = Some v → shown g name bm' = Some v)
       ∧ (∀ f, get_file_name p = Returns (Some f) → f ≠ "" →
            bm' !!! metrics.current_file = {[ [name; f] := num 1 ]})
       ∧ (∀ t d, nozzle_type p = Returns (Some t) →
            nozzle_diameter p = Returns (Some d) →
            bm' !!! metrics.nozzle_info = {[ [name; t; d] := num 1 ]})
       ∧ (∀ g, delivers_nothing p g → bm' !!! g = bm !!! g))
  ∧ (reset = false → get_nozzle_temperature p = Raises →
       liveness name p sr bm = Some ONLINE
       ∧ bm' !!! metrics.nozzle_temp = bm !!! metrics.nozzle_temp).
Proof.
  intros Hs Hc bm' reset. subst bm' reset.
  pose proof (liveness_by_temperatures name p sr Hs bm) as Hl. rewrite Hc in Hl.
  split; [intros p0 sr0 bm0; apply failure_is_absence|].
  assert (Hin : metrics.nozzle_temp ∈ reset_gauges) by apply list_elem_of_here.
  destruct connected, (temperature_returned_data p) eqn:Hd; simpl.
  - split; [by apply update_printer_online_returns|].
    split; [done|]. split.
    + intros _. split; [done|].
      split; [intros g v; by apply reported_published|].
      split; [intros f Hf Hne; by apply published_file|].
      split; [intros t d Ht Hdi; by apply published_nozzle|].
      intros g. by apply delivers_nothing_frame.
    + intros _ Hn. split; [done|].
      apply delivers_nothing_frame; [done | done |]. simpl. by rewrite Hn.
  - split; [by apply (offline_cycle_resets name p sr Hs metrics.nozzle_temp); auto|].
    split; [|done].
    intros _. split; [by rewrite Hl|].
    split; [by apply online_gauge_silent|].
    intros g Hg. by apply offline_cycle_resets; auto.
  - split; [by apply (offline_cycle_resets name p sr Hs metrics.nozzle_temp); auto|].
    split; [|done].
    intros _. split; [by rewrite Hl|].
    split; [by apply online_gauge_disconnected|].
    intros g Hg. by apply offline_cycle_resets; auto.
  - split; [by apply (offline_cycle_resets name p sr Hs metrics.nozzle_temp); auto|].
    split; [|done].
    intros _. split; [by rewrite Hl|].
    split; [by apply online_gauge_disconnected|].
    intros g Hg. by apply offline_cycle_resets; auto.
Qed.

Lemma field_fault_isolation_witness :
  let p := Sample.reporting Raises Sample.warm (Some (50 # 1)%Q)
             (Some "PRINTING") None None None None in
  let bm' := exec (update_printer "p1" p Sample.sink_ok) Sample.after_first_cycle in
  liveness "p1" p Sample.sink_ok Sample.after_first_cycle = Some ONLINE
  ∧ shown metrics.nozzle_temp "p1" bm' = Some (Num (421 # 2)%Q)
  ∧ shown metrics.print_progress "p1" bm' = Some (Num (50 # 1)%Q).
Proof.
  intros p bm'.
  destruct (field_fault_isolation "p1" p Sample.sink_ok Sample.after_first_cycle true
              (λ _, eq_refl) eq_refl) as (_ & _ & _ & Hon & Hex).
  destruct (Hon eq_refl) as (Hl & Hrep & _).
  split; [exact Hl|]. split.
  - unfold shown, bm'. rewrite (proj2 (Hex eq_refl eq_refl)). reflexivity.
  - exact (Hrep metrics.print_progress _ eq_refl).
Defined.

(** ** The loop over the printers *)

(** One step of the loop: the entry of the printer becomes what its own
    cycle makes of it; the loop goes on unless the handler raised too. *)
Lemma update_metrics_cons (name : string) (d : Device) (rest : list (string * Device))
    (ms : gmap string BambuMetrics) (bm : BambuMetrics) :
  ms !! name = Some bm →
  update_metrics ((name, d) :: rest) ms
  = update_metrics rest (<[name := device_cycle name d bm]> ms)
  ∨ update_metrics ((name, d) :: rest) ms
    = (Raised, <[name := device_cycle name d bm]> ms).
Proof.
  intros Hm. simpl. rewrite Hm. unfold device_cycle, exec.
  destruct (update_printer name (dev_printer d) (dev_sink_raises d) bm) as [[[]|] bm'];
    [by left|].
  destruct (on_error name (dev_sink_raises d) bm') as [[[]|] bm'']; [by left | by right].
Qed.

Lemma update_metrics_dom (ps : list (string * Device)) (ms : gmap string BambuMetrics) :
  dom (update_metrics ps ms).2 = dom ms.
Proof.
  revert ms. induction ps as [|[name d] ps IH]; intros ms; [done|].
  destruct (ms !! name) as [bm|] eqn:Hm; [|by simpl; rewrite Hm].
  assert (Hd : dom (<[name := device_cycle name d bm]> ms) = dom ms)
    by (by apply dom_insert_lookup_L).
  destruct (update_metrics_cons name d ps ms bm Hm) as [-> | ->]; [|done].
  by rewrite IH.
Qed.

Lemma update_metrics_other (ps : list (string * Device)) (ms : gmap string BambuMetrics)
    (name : string) :
  name ∉ ps.*1 → (update_metrics ps ms).2 !! name = ms !! name.
Proof.
  revert ms. induction ps as [|[n d] ps IH]; intros ms Hn; [done|].
  apply not_elem_of_cons in Hn as [Hne Hn]. simpl in Hne.
  destruct (ms !! n) as [bm|] eqn:Hm; [|by simpl; rewrite Hm].
  destruct (update_metrics_cons n d ps ms bm Hm) as [-> | ->]; simpl.
  - rewrite IH by done. by rewrite lookup_insert_ne.
  - by rewrite lookup_insert_ne.
Qed.

(** X8. The loop composes: polling a list of printers is polling its
    first part and then, unless an exception left the loop, the rest
    with the gauges the first part produced. *)
Theorem update_metrics_app (ps1 ps2 : list (string * Device))
    (ms : gmap string BambuMetrics) :
  update_metrics (ps1 ++ ps2) ms
  = match update_metrics ps1 ms with
    | (Ok _, ms') => update_metrics ps2 ms'
    | (Raised, ms') => (Raised, ms')
    end.
Proof.
  revert ms. induction ps1 as [|[name d] ps1 IH]; intros ms; [done|].
  simpl. destruct (ms !! name) as [bm|]; [|done].
  destruct (update_printer name (dev_printer d) (dev_sink_raises d) bm) as [[[]|] bm'];
    [apply IH|].
  destruct (on_error name (dev_sink_raises d) bm') as [[[]|] bm'']; [apply IH | done].
Qed.

(** X9. The loop stays within its printers: it creates and removes no
    [BambuMetrics] object, and the gauges of a printer that is not
    polled are left as they were. *)
Theorem update_metrics_scope (ps : list (string * Device))
    (ms : gmap string BambuMetrics) :
  dom (update_metrics ps ms).2 = dom ms
  ∧ ∀ name, name ∉ ps.*1 → (update_metrics ps ms).2 !! name = ms !! name.
Proof. split; [apply update_metrics_dom | intros name; apply update_metrics_other]. Qed.

(** X10. A polled printer without [BambuMetrics] object ends the cycle:
    [self.metrics[name]] raises [KeyError] in the body and again in the
    handler, so the exception leaves [update_metrics]. *)
Theorem missing_metrics_end_the_cycle (ps : list (string * Device))
    (ms : gmap string BambuMetrics) (name : string) :
  name ∈ ps.*1 → name ∉ dom ms →
  (update_metrics ps ms).1 = Raised.
Proof.
  revert ms. induction ps as [|[n d] ps IH]; intros ms Hin Hm.
  { by apply elem_of_nil in Hin. }
  destruct (ms !! n) as [bm|] eqn:Hn; [|by simpl; rewrite Hn].
  destruct (update_metrics_cons n d ps ms bm Hn) as [-> | ->]; [|done].
  apply elem_of_cons in Hin as [-> | Hin].
  { destruct Hm. apply elem_of_dom. by eexists. }
  apply IH; [done|]. rewrite dom_insert_lookup_L by done. done.
Qed.

Lemma update_metrics_ok (ps : list (string * Device))
    (ms : gmap string BambuMetrics) :
  (∀ name d, (name, d) ∈ ps →
     name ∈ dom ms ∧ dev_sink_raises d metrics.printer_online = false) →
  (update_metrics ps ms).1 = Ok ().
Proof.
  revert ms. induction ps as [|[n d] ps IH]; intros ms H; [done|].
  destruct (H n d) as [Hn Hs]; [apply list_elem_of_here|].
  apply elem_of_dom in Hn as [bm Hn].
  simpl. rewrite Hn.
  assert (Hrest : ∀ bm', (update_metrics ps (<[n := bm']> ms)).1 = Ok ()).
  { intros bm'. apply IH. intros name d' Hin.
    destruct (H name d') as [Hd Hs']; [by apply list_elem_of_further|].
    split; [|done]. rewrite dom_insert_lookup_L by done. done. }
  destruct (update_printer n (dev_printer d) (dev_sink_raises d) bm) as [[[]|] bm'];
    [apply Hrest|].
  unfold on_error. rewrite gauge_set_ok by done. apply Hrest.
Qed.

(** X11. The loop ends normally when every polled printer has its
    [BambuMetrics] object and the sink takes the handler's write of the
    online gauge: no exception of a client or of a gauge write in the
    body leaves [update_metrics]. *)
Theorem update_metrics_returns (ps : list (string * Device))
    (ms : gmap string BambuMetrics) :
  (∀ name d, (name, d) ∈ ps →
     name ∈ dom ms ∧ dev_sink_raises d metrics.printer_online = false) →
  (update_metrics ps ms).1 = Ok ().
Proof. apply update_metrics_ok. Qed.

(** X12. The printers do not interfere: when the names are distinct and
    the loop ends normally, the gauges of each polled printer are what
    its own cycle (with the handler, if its body raised) makes of the
    gauges it had, whatever the other printers did. *)
Theorem printers_do_not_interfere (ps : list (string * Device))
    (ms : gmap string BambuMetrics) (name : string) (d : Device) :
  NoDup ps.*1 →
  (update_metrics ps ms).1 = Ok () →
  (name, d) ∈ ps →
  ∃ bm, ms !! name = Some bm
        ∧ (update_metrics ps ms).2 !! name = Some (device_cycle name d bm).
Proof.
  revert ms. induction ps as [|[n d'] ps IH]; intros ms Hnd Hok Hin.
  { by apply elem_of_nil in Hin. }
  apply NoDup_cons in Hnd as [Hn Hnd]. fold (fmap (M := list) fst ps) in Hn, Hnd.
  destruct (ms !! n) as [bm|] eqn:Hm; [|by simpl in Hok; rewrite Hm in Hok].
  destruct (update_metrics_cons n d' ps ms bm Hm) as [E | E]; rewrite E in Hok |- *;
    [|done].
  apply elem_of_cons in Hin as [[= -> ->] | Hin].
  - exists bm. split; [done|]. rewrite update_metrics_other by done.
    apply lookup_insert_eq.
  - destruct (IH _ Hnd Hok Hin) as (bm0 & H1 & H2).
    assert (Hne : n ≠ name).
    { intros ->. apply Hn. apply list_elem_of_fmap. by exists (name, d). }
    rewrite lookup_insert_ne in H1 by done. by exists bm0.
Qed.

(** ** Connecting the printers *)

Lemma dict_set_keys {V : Type} (k : string) (v : V) (d : list (string * V)) (n : string) :
  n ∈ (dict_set k v d).*1 ↔ n = k ∨ n ∈ d.*1.
Proof.
  induction d as [|[k' v'] d IH]; simpl.
  - rewrite list_elem_of_singleton. split; [by left | intros [?|H]; [done|]].
    by apply elem_of_nil in H.
  - destruct (decide (k' = k)) as [->|Hne]; simpl; rewrite !elem_of_cons.
    + tauto.
    + rewrite IH. tauto.
Qed.

Lemma dict_set_NoDup {V : Type} (k : string) (v : V) (d : list (string * V)) :
  NoDup d.*1 → NoDup (dict_set k v d).*1.
Proof.
  induction d as [|[k' v'] d IH]; simpl; intros Hd.
  - apply NoDup_singleton.
  - apply NoDup_cons in Hd as [Hk Hd].
    destruct (decide (k' = k)) as [->|Hne]; simpl; apply NoDup_cons.
    + done.
    + split; [|by apply IH]. rewrite dict_set_keys. intros [?|?]; [congruence | done].
Qed.

(** A key that is new goes to the end. *)
Lemma dict_set_new {V : Type} (k : string) (v : V) (d : list (string * V)) :
  k ∉ d.*1 → dict_set k v d = (d ++ [(k, v)])%list.
Proof.
  induction d as [|[k' v'] d IH]; simpl; intros Hk; [done|].
  apply not_elem_of_cons in Hk as [Hne Hk].
  rewrite decide_False by done. by rewrite IH.
Qed.

(** What one entry of the configuration does. *)
Lemma connect_printer_cases (c : PrinterConfig) (e : Connecting) (st : Exporter) :
  ((connect_printer c e st).2 = st ∧ ∀ n, ¬ registers n (c, e))
  ∨ ∃ n h bm,
      registers n (c, e)
      ∧ (bm = connected_metrics n ∨ bm = ∅)
      ∧ connect_printer c e st
        = (Ok (), {| exp_printers := dict_set n h (exp_printers st);
                     exp_metrics := if metrics_raise e then exp_metrics st
                                    else <[n := bm]> (exp_metrics st) |}).
Proof.
  unfold connect_printer, registers. simpl.
  destruct (default true (cfg_enabled c)) eqn:He; simpl;
    [|left; split; [done | intros n (? & _); congruence]].
  destruct (cfg_name c) as [name|];
    [|left; split; [done | intros n (_ & ? & _); congruence]].
  destruct (cfg_ip c) as [ip|];
    [|left; split; [done | intros n (_ & _ & [? ?] & _); congruence]].
  destruct (cfg_access_code c) as [ac|];
    [|left; split; [done | intros n (_ & _ & _ & [? ?] & _); congruence]].
  destruct (cfg_serial c) as [serial|];
    [|left; split; [done | intros n (_ & _ & _ & _ & [? ?] & _); congruence]].
  destruct (connect_raises e) eqn:Hc;
    [left; split; [done | intros n (_ & _ & _ & _ & _ & ?); congruence]|].
  right. exists name, {| h_ip := ip; h_access_code := ac; h_serial := serial |}.
  destruct (metrics_raise e).
  - exists ∅. by repeat split; eauto.
  - eexists. split; [by repeat split; eauto|]. split; [|done].
    unfold exec, gauge_set. destruct (online_raises e); simpl; [by right | left].
    reflexivity.
Qed.

(** The registry after [connect_printers], from any state. *)
Lemma connect_printers_names (config : list (PrinterConfig * Connecting))
    (st : Exporter) (n : string) :
  n ∈ (exp_printers (connect_printers config st).2).*1 →
  n ∈ (exp_printers st).*1 ∨ ∃ ce, ce ∈ config ∧ registers n ce.
Proof.
  revert st. induction config as [|[c e] config IH]; intros st; simpl; [by left|].
  destruct (connect_printer_cases c e st) as [[Hst Hno] | (m & h & bm & Hr & _ & E)].
  - destruct (connect_printer c e st) as [[[]|] st']; simpl in *; subst.
    + intros [?|(ce & Hin & Hce)]%IH; [by left | right].
      exists ce. split; [by apply list_elem_of_further | done].
    + by left.
  - rewrite E. intros [H|(ce & Hin & Hce)]%IH.
    + simpl in H. apply dict_set_keys in H as [-> | H]; [right | by left].
      exists (c, e). split; [apply list_elem_of_here | done].
    + right. exists ce. split; [by apply list_elem_of_further | done].
Qed.

Lemma connect_printers_keeps_names (config : list (PrinterConfig * Connecting))
    (st : Exporter) (n : string) :
  n ∈ (exp_printers st).*1 → n ∈ (exp_printers (connect_printers config st).2).*1.
Proof.
  revert st. induction config as [|[c e] config IH]; intros st Hn; simpl; [done|].
  destruct (connect_printer_cases c e st) as [[Hst Hno] | (m & h & bm & Hr & _ & E)].
  - destruct (connect_printer c e st) as [[[]|] st']; simpl in *; subst; [by apply IH | done].
  - rewrite E. apply IH. simpl. apply dict_set_keys. by right.
Qed.

Lemma connect_printers_registered (config : list (PrinterConfig * Connecting))
    (st : Exporter) (n : string) (ce : PrinterConfig * Connecting) :
  (connect_printers config st).1 = Ok () →
  ce ∈ config → registers n ce →
  n ∈ (exp_printers (connect_printers config st).2).*1.
Proof.
  revert st. induction config as [|[c e] config IH]; intros st Hok Hin Hr.
  { by apply elem_of_nil in Hin. }
  simpl in *.
  destruct (connect_printer_cases c e st) as [[Hst Hno] | (m & h & bm & Hr' & _ & E)].
  - apply elem_of_cons in Hin as [-> | Hin]; [by destruct (Hno n)|].
    destruct (connect_printer c e st) as [[[]|] st']; simpl in *; [by eapply IH | done].
  - rewrite E in Hok |- *. apply elem_of_cons in Hin as [-> | Hin]; [|by eapply IH].
    apply connect_printers_keeps_names. simpl. apply dict_set_keys. left.
    destruct Hr as (_ & Hn & _), Hr' as (_ & Hm & _). simpl in *. congruence.
Qed.

(** The invariants of the registry. *)
Lemma connect_printers_invariant (config : list (PrinterConfig * Connecting))
    (st : Exporter) :
  NoDup (exp_printers st).*1 →
  (∀ n, n ∈ dom (exp_metrics st) → n ∈ (exp_printers st).*1) →
  (∀ n bm, exp_metrics st !! n = Some bm → bm = connected_metrics n ∨ bm = ∅) →
  let st' := (connect_printers config st).2 in
  NoDup (exp_printers st').*1
  ∧ (∀ n, n ∈ dom (exp_metrics st') → n ∈ (exp_printers st').*1)
  ∧ (∀ n bm, exp_metrics st' !! n = Some bm → bm = connected_metrics n ∨ bm = ∅).
Proof.
  revert st. induction config as [|[c e] config IH]; intros st Hnd Hsub Hfresh; [done|].
  simpl.
  destruct (connect_printer_cases c e st) as [[Hst Hno] | (m & h & bm & Hr & Hbm & E)].
  - destruct (connect_printer c e st) as [[[]|] st']; simpl in *; subst; [by apply IH | done].
  - rewrite E. apply IH; simpl.
    + by apply dict_set_NoDup.
    + intros n Hn. apply dict_set_keys.
      destruct (metrics_raise e); [right; by apply Hsub|].
      apply dom_insert in Hn. apply elem_of_union in Hn as [Hn | Hn].
      * left. by apply elem_of_singleton in Hn.
      * right. by apply Hsub.
    + intros n bm0. destruct (metrics_raise e); [apply Hfresh|].
      destruct (decide (m = n)) as [->|Hne].
      * rewrite lookup_insert_eq. by intros [= <-].
      * rewrite lookup_insert_ne by done. apply Hfresh.
Qed.

(** X13. The registry after [connect_printers]: the names in
    [self.printers] are distinct, every [BambuMetrics] object belongs to
    a registered printer, and each object is fresh, holding the online
    gauge at 1 and nothing else (or nothing at all when that first
    write raised). *)
Theorem registry_after_connect (config : list (PrinterConfig * Connecting)) :
  let st := (connect_printers config new_exporter).2 in
  NoDup (exp_printers st).*1
  ∧ (∀ n, n ∈ dom (exp_metrics st) → n ∈ (exp_printers st).*1)
  ∧ (∀ n bm, exp_metrics st !! n = Some bm → bm = connected_metrics n ∨ bm = ∅).
Proof.
  apply connect_printers_invariant; simpl.
  - apply NoDup_nil_2.
  - intros n. by rewrite dom_empty_L.
  - intros n bm. by rewrite lookup_empty.
Qed.

(** X14. Who is registered: when no entry lacks a key, the printers in
    [self.printers] are exactly the names of the entries that are
    enabled (or carry no [enabled] key) and whose connection did not
    raise; a disabled entry or a failed connection leaves no trace. *)
Theorem registered_printers (config : list (PrinterConfig * Connecting)) (n : string) :
  (connect_printers config new_exporter).1 = Ok () →
  n ∈ (exp_printers (connect_printers config new_exporter).2).*1
  ↔ ∃ ce, ce ∈ config ∧ registers n ce.
Proof.
  intros Hok. split.
  - intros [H|H]%connect_printers_names; [|done]. by apply elem_of_nil in H.
  - intros (ce & Hin & Hr). by eapply connect_printers_registered.
Qed.

Lemma registered_printers_witness :
  let config :=
    [ (SampleConfig.entry "p1" None, SampleConfig.connects);
      (SampleConfig.entry "p2" (Some false), SampleConfig.connects);
      (SampleConfig.entry "p3" (Some true), SampleConfig.refused) ] in
  "p1" ∈ (exp_printers (connect_printers config new_exporter).2).*1
  ∧ "p2" ∉ (exp_printers (connect_printers config new_exporter).2).*1.
Proof.
  intros config. split.
  - apply (proj2 (registered_printers config "p1" eq_refl)).
    exists (SampleConfig.entry "p1" None, SampleConfig.connects).
    split; [apply list_elem_of_here|]. unfold registers. simpl. by repeat split; eauto.
  - intros H. apply (proj1 (registered_printers config "p2" eq_refl)) in H.
    destruct H as (ce & Hin & Hr).
    repeat (apply elem_of_cons in Hin as [-> | Hin];
            [by destruct Hr as (? & ? & ? & ? & ? & ?)|]).
    by apply elem_of_nil in Hin.
Defined.

Lemma connect_printers_app (c1 c2 : list (PrinterConfig * Connecting)) (st : Exporter) :
  connect_printers (c1 ++ c2) st
  = match connect_printers c1 st with
    | (Ok _, st') => connect_printers c2 st'
    | (Raised, st') => (Raised, st')
    end.
Proof.
  revert st. induction c1 as [|[c e] c1 IH]; intros st; [done|].
  simpl. by destruct (connect_printer c e st) as [[[]|] st'].
Qed.

(** X15. A missing key stops the connecting: an enabled entry without
    [name], [ip], [access_code] or [serial] raises [KeyError] out of
    [connect_printers]; the entries before it stay registered and those
    after it are never connected. *)
Theorem missing_key_stops_connecting (c1 c2 : list (PrinterConfig * Connecting))
    (c : PrinterConfig) (e : Connecting) (st : Exporter) :
  default true (cfg_enabled c) = true →
  cfg_name c = None ∨ cfg_ip c = None ∨ cfg_access_code c = None ∨ cfg_serial c = None →
  (connect_printers c1 st).1 = Ok () →
  connect_printers (c1 ++ (c, e) :: c2) st = (Raised, (connect_printers c1 st).2).
Proof.
  intros He Hk Hok. rewrite connect_printers_app.
  destruct (connect_printers c1 st) as [[[]|] st']; simplify_eq/=.
  unfold connect_printer. rewrite He. simpl.
  destruct Hk as [-> | [-> | [-> | ->]]]; [done | | |].
  - by destruct (cfg_name c).
  - by destruct (cfg_name c), (cfg_ip c).
  - by destruct (cfg_name c), (cfg_ip c), (cfg_access_code c).
Qed.

Lemma missing_key_stops_connecting_witness :
  let before := [(SampleConfig.entry "p1" None, SampleConfig.connects)] in
  let after := [(SampleConfig.entry "p3" None, SampleConfig.connects)] in
  connect_printers
    (before ++ (SampleConfig.incomplete "p2", SampleConfig.connects) :: after) new_exporter
  = (Raised, (connect_printers before new_exporter).2).
Proof.
  intros before after.
  apply (missing_key_stops_connecting before after (SampleConfig.incomplete "p2")
           SampleConfig.connects new_exporter eq_refl); [|reflexivity].
  right; right; right. reflexivity.
Defined.

(** A registered printer has its metrics when no constructor raised. *)
Lemma connect_printers_metrics (config : list (PrinterConfig * Connecting))
    (st : Exporter) :
  (∀ ce n, ce ∈ config → registers n ce → metrics_raise ce.2 = false) →
  (∀ n, n ∈ (exp_printers st).*1 → n ∈ dom (exp_metrics st)) →
  ∀ n, n ∈ (exp_printers (connect_printers config st).2).*1 →
       n ∈ dom (exp_metrics (connect_printers config st).2).
Proof.
  revert st. induction config as [|[c e] config IH]; intros st Hm Hst; [done|].
  simpl.
  assert (Hm' : ∀ ce n, ce ∈ config → registers n ce → metrics_raise ce.2 = false)
    by (intros ce n ?; apply Hm; by apply list_elem_of_further).
  destruct (connect_printer_cases c e st) as [[E Hno] | (m & h & bm & Hr & _ & E)].
  - destruct (connect_printer c e st) as [[[]|] st']; simpl in *; subst; [by apply IH | done].
  - rewrite E. apply IH; [done|]. simpl.
    pose proof (Hm (c, e) m (list_elem_of_here _ _) Hr) as Hce. simpl in Hce.
    rewrite Hce.
    intros n [-> | Hn]%dict_set_keys; rewrite dom_insert_L; [set_solver|].
    apply elem_of_union. right. by apply Hst.
Qed.

(** X16. After [connect_printers], when no [BambuMetrics] constructor
    raised, a cycle over the registered printers ends normally provided
    the sink takes the handler's write of the online gauge: no printer
    is met without its metrics. *)
Theorem cycle_after_connect (config : list (PrinterConfig * Connecting))
    (ps : list (string * Device)) :
  (∀ ce n, ce ∈ config → registers n ce → metrics_raise ce.2 = false) →
  ps.*1 = (exp_printers (connect_printers config new_exporter).2).*1 →
  (∀ n d, (n, d) ∈ ps → dev_sink_raises d metrics.printer_online = false) →
  (update_metrics ps (exp_metrics (connect_printers config new_exporter).2)).1 = Ok ().
Proof.
  intros Hm Hps Hs. apply update_metrics_ok. intros n d Hin.
  split; [|by eapply Hs].
  apply connect_printers_metrics; [done | |].
  - intros n' H. by apply elem_of_nil in H.
  - rewrite <- Hps. apply list_elem_of_fmap. by exists (n, d).
Qed.

Lemma cycle_after_connect_witness :
  let config :=
    [ (SampleConfig.entry "p1" None, SampleConfig.connects);
      (SampleConfig.entry "p2" (Some true), SampleConfig.connects) ] in
  let ps :=
    [ ("p1", Sample.device (Sample.printing None) Sample.sink_ok);
      ("p2", Sample.device Sample.unreachable Sample.sink_ok) ] in
  (update_metrics ps (exp_metrics (connect_printers config new_exporter).2)).1 = Ok ().
Proof.
  intros config ps. apply (cycle_after_connect config ps); [| reflexivity |].
  - intros ce n Hin _.
    repeat (apply elem_of_cons in Hin as [-> | Hin]; [reflexivity|]).
    by apply elem_of_nil in Hin.
  - intros n d Hin.
    repeat (apply elem_of_cons in Hin as [[= -> ->] | Hin]; [reflexivity|]).
    by apply elem_of_nil in Hin.
Defined.

(** The witnesses of the loop theorems. *)

Lemma missing_metrics_end_the_cycle_witness :
  let ps :=
    [ ("p1", Sample.device (Sample.printing None) Sample.sink_ok);
      ("p2", Sample.device (Sample.printing None) Sample.sink_ok) ] in
  (exp_printers SampleConfig.half_registered).*1 = ps.*1
  ∧ (update_metrics ps (exp_metrics SampleConfig.half_registered)).1 = Raised.
Proof.
  intros ps. split; [reflexivity|].
  apply (missing_metrics_end_the_cycle ps (exp_metrics SampleConfig.half_registered) "p2").
  - apply list_elem_of_further, list_elem_of_here.
  - apply not_elem_of_dom. reflexivity.
Defined.

Lemma update_metrics_returns_witness :
  let ps := [("p1", Sample.device Sample.unreachable Sample.sink_ok)] in
  (update_metrics ps {[ "p1" := connected_metrics "p1" ]}).1 = Ok ().
Proof.
  intros ps. apply (update_metrics_returns ps). intros n d Hin.
  apply list_elem_of_singleton in Hin as [= -> ->].
  split; [|reflexivity]. apply elem_of_dom. by eexists.
Defined.

Lemma printers_do_not_interfere_witness :
  let d1 := Sample.device (Sample.printing (Some "a.gcode")) Sample.sink_ok in
  let d2 := Sample.device Sample.unplugged Sample.sink_ok in
  let ms : gmap string BambuMetrics :=
    <["p1" := connected_metrics "p1"]> {[ "p2" := connected_metrics "p2" ]} in
  ∃ bm, ms !! "p1" = Some bm
        ∧ (update_metrics [("p1", d1); ("p2", d2)] ms).2 !! "p1"
          = Some (device_cycle "p1" d1 bm).
Proof.
  intros d1 d2 ms.
  apply (printers_do_not_interfere [("p1", d1); ("p2", d2)] ms "p1" d1).
  - simpl. apply NoDup_cons. split; [|apply NoDup_singleton].
    intros H%list_elem_of_singleton. discriminate.
  - reflexivity.
  - apply list_elem_of_here.
Defined.

Lemma connect_printers_order (config : list (PrinterConfig * Connecting))
    (names : list string) (st : Exporter) :
  Forall2 registers names config →
  NoDup ((exp_printers st).*1 ++ names)%list →
  (connect_printers config st).1 = Ok ()
  ∧ (exp_printers (connect_printers config st).2).*1
    = ((exp_printers st).*1 ++ names)%list.
Proof.
  intros HF. revert st. induction HF as [|n [c e] names config Hr HF IH]; intros st Hnd.
  { simpl. by rewrite app_nil_r. }
  simpl.
  destruct (connect_printer_cases c e st) as [[_ Hno] | (m & h & bm & Hr' & _ & E)];
    [by destruct (Hno n)|].
  assert (m = n) as ->.
  { destruct Hr as (_ & Hn & _), Hr' as (_ & Hm & _). simpl in *. congruence. }
  rewrite E.
  assert (Hfresh : n ∉ (exp_printers st).*1).
  { apply NoDup_app in Hnd as (_ & Hd & _). intros Hin. apply (Hd n Hin).
    apply list_elem_of_here. }
  destruct (IH {| exp_printers := dict_set n h (exp_printers st);
                  exp_metrics := if metrics_raise e then exp_metrics st
                                 else <[n := bm]> (exp_metrics st) |}) as [Hok Hnames].
  - simpl. rewrite dict_set_new by done. rewrite fmap_app. simpl.
    rewrite <- app_assoc. exact Hnd.
  - split; [done|]. rewrite Hnames. simpl. rewrite dict_set_new by done.
    rewrite fmap_app. simpl. rewrite <- app_assoc. reflexivity.
Qed.

(** X17. Order of the registry: when every entry is enabled, complete
    and connects, and the names are distinct, [connect_printers] ends
    normally and [self.printers] lists the printers in the order of the
    configuration, which is the order in which every cycle polls them. *)
Theorem registered_in_configuration_order (config : list (PrinterConfig * Connecting))
    (names : list string) :
  Forall2 registers names config →
  NoDup names →
  (connect_printers config new_exporter).1 = Ok ()
  ∧ (exp_printers (connect_printers config new_exporter).2).*1 = names.
Proof. intros HF Hnd. by apply (connect_printers_order config names new_exporter). Qed.

Lemma registered_in_configuration_order_witness :
  let config :=
    [ (SampleConfig.entry "p2" None, SampleConfig.connects);
      (SampleConfig.entry "p1" (Some true), SampleConfig.without_metrics) ] in
  (exp_printers (connect_printers config new_exporter).2).*1 = ["p2"; "p1"].
Proof.
  intros config.
  refine (proj2 (registered_in_configuration_order config ["p2"; "p1"] _ _)).
  - constructor; [| constructor; [| constructor]];
      unfold registers; simpl; repeat split; eauto.
  - apply NoDup_cons. split; [|apply NoDup_singleton].
    intros H%list_elem_of_singleton. discriminate.
Defined.
